(** * medi-chal: the AutoML dataset container, type inference and comparator

    A shallow embedding of

      - [code/auto_ml/auto_ml.py]     (class [AutoML]),
      - [code/auto_ml/comparator.py]  (class [Comparator]),
      - [code/processing/processing.py] (function [get_types]),

    together with the small part of pandas, numpy and Python that these
    files rely on (label based selection and assignment, slices, dict
    subscripts, unbound local variables).

    Python objects are mutable and exceptions leave every mutation done so
    far in place, so methods are computations in a state-and-exception
    monad [Py St]: a method of [AutoML] maps the object before the call to
    the object after the call and either a raised exception or a returned
    value. *)

From stdpp Require Import gmap strings list fin_maps functions sorting pretty.
From Stdlib Require Import Ascii QArith Qround Reals Lra Lia.

#[local] Set Warnings "-clear-no-such-hyp".

Close Scope Q_scope.
Close Scope R_scope.
Local Open Scope string_scope.
Local Open Scope list_scope.
Local Open Scope stdpp_scope.

(** ** Python: exceptions, the object monad, strings, slices, dicts *)

Inductive exn :=
  | KeyError
  | ValueError
  | IndexError
  | UnboundLocalError
  | AssertionError
  | OSError (msg : string).

(** [inl e]: the call raised [e]; [inr v]: it returned [v]. *)
Definition result (A : Type) : Type := exn + A.

Global Instance result_ret : MRet result := λ A v, inr v.
Global Instance result_bind : MBind result :=
  λ A B f m, match m with inl e => inl e | inr v => f v end.

Definition raise {A} (e : exn) : result A := inl e.

(** A method on an object of state [St]. *)
Definition Py (St A : Type) : Type := St → St * result A.

Global Instance Py_ret {St} : MRet (Py St) := λ A v st, (st, inr v).
Global Instance Py_bind {St} : MBind (Py St) :=
  λ A B f m st,
    match m st with
    | (st', inl e) => (st', inl e)
    | (st', inr v) => f v st'
    end.

(** Running a computation that only reads the object. *)
Definition reading {St A} (f : St → result A) : Py St A := λ st, (st, f st).
(** An attribute assignment [self.x = ...]. *)
Definition assign {St} (f : St → St) : Py St unit := λ st, (f st, inr tt).

(** A method keeps the relation [R] between the object before the call
    and the object after it, whether it returns or raises. *)
Definition preserves {St A} (R : relation St) (m : Py St A) : Prop :=
  ∀ st, R st (m st).1.

Definition getself {St} : Py St St := λ st, (st, inr st).
(** A computation that does not touch the object. *)
Definition lift {St A} (r : result A) : Py St A := λ st, (st, r).

(** A [for] loop threading the loop-carried variables [S]. *)
Fixpoint for_each {A S} (l : list A) (body : A → S → result S) (s : S) : result S :=
  match l with
  | [] => inr s
  | a :: l' => match body a s with inl e => inl e | inr s' => for_each l' body s' end
  end.

(** [l[i]] on a Python list or an index: [IndexError] out of range. *)
Definition item {A} (l : list A) (i : nat) : result A :=
  match l !! i with
  | Some a => inr a
  | None => raise IndexError
  end.

(** [os.path.join(a, b)]. *)
Definition ends_with_slash (a : string) : bool :=
  match String.rev a with
  | String c _ => Ascii.eqb c "/"%char
  | EmptyString => false
  end.

Definition path_join (a b : string) : string :=
  match b with
  | String c _ => if Ascii.eqb c "/"%char then b
                  else if String.eqb a "" || ends_with_slash a then a +:+ b
                  else a +:+ "/" +:+ b
  | EmptyString => if String.eqb a "" || ends_with_slash a then a else a +:+ "/"
  end.

(** [c in s] for a character [c]. *)
Fixpoint contains_char (c : ascii) (s : string) : bool :=
  match s with
  | EmptyString => false
  | String a s' => if Ascii.eqb a c then true else contains_char c s'
  end.

(** [s.split(c)]: the pieces of [s] between the occurrences of [c]. *)
Fixpoint split_char (c : ascii) (s : string) : list string :=
  match s with
  | EmptyString => [EmptyString]
  | String a s' =>
      if Ascii.eqb a c then EmptyString :: split_char c s'
      else match split_char c s' with
           | p :: ps => String a p :: ps
           | [] => [String a EmptyString]
           end
  end.

(** [x in l] for a Python list of strings. *)
Definition str_in (x : string) (l : list string) : bool := bool_decide (x ∈ l).

(** [d[k]] on a dict: [KeyError] when the key is absent. *)
Definition subscript {V} (d : gmap string V) (k : string) : result V :=
  match d !! k with
  | Some v => inr v
  | None => raise KeyError
  end.

(** Reading a local variable that may not have been assigned. *)
Definition local {A} (v : option A) : result A :=
  match v with
  | Some a => inr a
  | None => raise UnboundLocalError
  end.

(** The start of the slices [l[k:]] and [l[:k]]: a negative [k] counts
    from the end, and both ends are clipped to the list. *)
Definition slice_pos (n : nat) (k : Z) : nat :=
  if (k <? 0)%Z then Z.to_nat (Z.max 0 (Z.of_nat n + k)) else Z.to_nat k.

Definition slice_from {A} (l : list A) (k : Z) : list A := drop (slice_pos (length l) k) l.
Definition slice_to {A} (l : list A) (k : Z) : list A := take (slice_pos (length l) k) l.

(** [int(x)] on a number: truncation toward zero.  The floats of the
    program are idealised as rationals. *)
Definition py_int (q : Q) : Z := Z.quot (Qnum q) (Z.pos (Qden q)).

(** ** pandas: labels, cells and frames *)

(** Row and column labels: integers (a default [RangeIndex], or numbers
    read from a name file) or strings. *)
Inductive label := LInt (z : Z) | LStr (s : string).

Global Instance label_eq_dec : EqDecision label.
Proof. solve_decision. Defined.

Global Instance label_countable : Countable label :=
  inj_countable'
    (λ l, match l with LInt z => inl z | LStr s => inr s end)
    (λ x, match x with inl z => LInt z | inr s => LStr s end)
    (λ l, match l with LInt _ => eq_refl | LStr _ => eq_refl end).

(** [range(a, a + n)] as row labels. *)
Definition py_range (a n : nat) : list label := (λ i, LInt (Z.of_nat i)) <$> seq a n.

Section Frame.
Context {num : Type}.

(** A cell holds a number, the missing value [NaN], or a string. *)
Inductive cell := Num (x : num) | NaN | Str (s : string).

(** A numpy 2-D array as it comes out of [read_csv(...).values]. *)
Definition array := list (list cell).

(** A [DataFrame]: the ordered row index, the ordered column index and
    the cell stored at each (row, column) address.  Labels are taken to
    be unique on both axes. *)
Record DataFrame := mkDF {
  index : list label;
  columns : list label;
  cells : gmap (label * label) cell
}.

(** The value at an address; an address without a stored value reads as
    the missing value. *)
Definition cell_at (df : DataFrame) (k : label * label) : cell :=
  default NaN (cells df !! k).

Definition has_labels (df : DataFrame) (rows cols : list label) : bool :=
  forallb (λ r, bool_decide (r ∈ index df)) rows &&
  forallb (λ c, bool_decide (c ∈ columns df)) cols.

(** [df.loc[rows, cols]]: the sub-frame at the requested labels, in the
    requested order; [KeyError] when a label is not in the frame. *)
Definition loc (df : DataFrame) (rows cols : list label) : result DataFrame :=
  if has_labels df rows cols then
    inr (mkDF rows cols
           (list_to_map ((λ k, (k, cell_at df k)) <$> list_prod rows cols)))
  else raise KeyError.

(** What a frame [v] contributes at address [k] once it is re-indexed to
    the target of an assignment: its own value where it has the row and
    the column, the missing value elsewhere. *)
Definition aligned (v : DataFrame) (k : label * label) : cell :=
  if bool_decide (k.1 ∈ index v) && bool_decide (k.2 ∈ columns v)
  then cell_at v k else NaN.

(** [df.loc[rows, cols] = v] for a frame [v]: assignment aligned on the
    labels.  The index and the columns of [df] stay as they are. *)
Definition loc_set (df : DataFrame) (rows cols : list label) (v : DataFrame)
  : result DataFrame :=
  if has_labels df rows cols then
    inr (mkDF (index df) (columns df)
           (foldr (λ k m, <[k := aligned v k]> m) (cells df) (list_prod rows cols)))
  else raise KeyError.

(** [pd.DataFrame(X, columns=names)] on a 2-D array: a default
    [RangeIndex] on the rows; [ValueError] when a row does not have one
    value per name. *)
Definition enumerate {A} (l : list A) : list (nat * A) := zip (seq 0 (length l)) l.

Definition frame_of_array (X : array) (names : list label) : result DataFrame :=
  if forallb (λ row, Nat.eqb (length row) (length names)) X then
    inr (mkDF (py_range 0 (length X)) names
           (list_to_map
              (flat_map (λ '(i, row), (λ '(c, x), ((LInt (Z.of_nat i), c), x)) <$> zip names row)
                        (enumerate X))))
  else raise ValueError.

(** [pd.concat([a, b], axis=1)] for two frames on default row indexes:
    the rows are the union of both indexes (an outer join), the columns
    of [b] follow those of [a], and a frame contributes the missing value
    on the rows it does not have. *)
Definition concat_columns (a b : DataFrame) : DataFrame :=
  let rows := if Nat.leb (length (index b)) (length (index a)) then index a else index b in
  mkDF rows (columns a ++ columns b)
    (list_to_map
       (((λ k, (k, aligned a k)) <$> list_prod rows (columns a)) ++
        ((λ k, (k, aligned b k)) <$> list_prod rows (columns b)))).

(** [np.concatenate((a, b), axis=0)].  [None] stands for the 1-D empty
    list that [load_data] and [load_label] return for a missing file;
    numpy refuses to stack it under a 2-D array, and refuses two arrays
    of different widths. *)
Definition width (X : array) : nat := match X with row :: _ => length row | [] => 0 end.

Definition np_concatenate (a b : option array) : result array :=
  match a, b with
  | Some x, Some y =>
      if forallb (λ row, Nat.eqb (length row) (width (x ++ y))) (x ++ y)
      then inr (x ++ y) else raise ValueError
  | _, _ => raise ValueError
  end.

End Frame.

Arguments cell : clear implicits.
Arguments array : clear implicits.
Arguments DataFrame : clear implicits.

(** ** The helper modules [imputation], [normalization] and [encoding]

    [auto_ml.py] imports these three modules.  The dataset container only
    fixes how they are called; what they compute is left open here and is
    supplied when a statement depends on it. *)

(** [imputation.remove(df, columns)], [imputation.median(df, column)],
    [imputation.mean(df, column)], [imputation.most(df, column)]. *)
Record imputation_module (num : Type) := {
  imputation_remove : DataFrame num → list label → DataFrame num;
  imputation_median : DataFrame num → label → DataFrame num;
  imputation_mean : DataFrame num → label → DataFrame num;
  imputation_most : DataFrame num → label → DataFrame num
}.

(** [normalization.standard(df, column, mean=None, std=None)] returns the
    frame and the pair [(mean, std)]; [normalization.min_max(df, column,
    mini=None, maxi=None)] returns the frame and [(mini, maxi)]. *)
Record normalization_module (num P : Type) := {
  normalization_standard : DataFrame num → label → option P → option P → DataFrame num * (P * P);
  normalization_min_max : DataFrame num → label → option P → option P → DataFrame num * (P * P)
}.

(** [encoding.f(df, column, mapping=None)], for [f] one of [one_hot],
    [likelihood] and [label], returns the frame and the mapping. *)
Record encoding_module (num M : Type) := {
  encoding_one_hot : DataFrame num → label → option M → DataFrame num * M;
  encoding_likelihood : DataFrame num → label → option M → DataFrame num * M;
  encoding_label : DataFrame num → label → option M → DataFrame num * M
}.

Arguments imputation_remove {num}.
Arguments imputation_median {num}.
Arguments imputation_mean {num}.
Arguments imputation_most {num}.
Arguments normalization_standard {num P}.
Arguments normalization_min_max {num P}.
Arguments encoding_one_hot {num M}.
Arguments encoding_likelihood {num M}.
Arguments encoding_label {num M}.

(** ** [code/auto_ml/auto_ml.py]: class [AutoML] *)

(** A value of the [info] dictionary: an integer or a string. *)
Inductive info_value := IInt (z : Z) | IStr (s : string).

Global Instance info_value_eq_dec : EqDecision info_value.
Proof. solve_decision. Defined.

(** The third argument of [process_data]: one policy for every type
    class, or a list [[binary, categorical, numerical]]. *)
Inductive missing_arg :=
  | MissingOne (how : option string)
  | MissingList (hows : list (option string)).

(** The files of a dataset directory that [init_data] looks at, each
    either absent or parsed into an array. *)
Record files (num : Type) := {
  train_data : option (array num);
  test_data : option (array num);
  train_solution : option (array num);
  test_solution : option (array num);
  plain_data : option (array num);
  plain_solution : option (array num)
}.

Arguments train_data {num}.
Arguments test_data {num}.
Arguments train_solution {num}.
Arguments test_solution {num}.
Arguments plain_data {num}.
Arguments plain_solution {num}.

Module AutoML.
Section Class.
Context {num : Type}.

(** The attributes of an [AutoML] object.  [info] keeps the insertion
    order of the dictionary, which [save] follows.  The paths
    [input_dir] and [basename] and the [descriptors] dictionary, which
    only [compute_descriptors] writes, are left out. *)
Record t := mk {
  subsets : gmap string (list label);
  feat_name : list label;
  label_name : list label;
  data : DataFrame num;
  processed_data : DataFrame num;
  info : list (string * info_value);
  feat_type : list string
}.

Definition set_subsets (f : gmap string (list label) → gmap string (list label)) (self : t) : t :=
  mk (f (subsets self)) (feat_name self) (label_name self) (data self)
     (processed_data self) (info self) (feat_type self).

Definition set_raw (df : DataFrame num) (self : t) : t :=
  mk (subsets self) (feat_name self) (label_name self) df
     (processed_data self) (info self) (feat_type self).

Definition set_processed (df : DataFrame num) (self : t) : t :=
  mk (subsets self) (feat_name self) (label_name self) (data self)
     df (info self) (feat_type self).

Definition set_feat_type (types : list string) (self : t) : t :=
  mk (subsets self) (feat_name self) (label_name self) (data self)
     (processed_data self) (info self) types.

(** *** [train_test_split] (lines 221-241)

    [rng population] is what [random.sample(population, len(population))]
    returns; the keyword arguments are [shuffle] and [test_size]. *)
Definition train_test_split (rng : list label → list label)
    (shuffle : option bool) (test_size : option Q) : Py t unit :=
  λ self,
    let index := index (data self) in
    let shuffle := default true shuffle in
    let shuffled_index := if shuffle then Some (rng index) else None in
    let test_size := default (2 # 10)%Q test_size in
    let split := py_int (test_size * inject_Z (Z.of_nat (length index)))%Q in
    match local shuffled_index with
    | inl e => (self, inl e)
    | inr shuffled_index =>
        (set_subsets (λ d, <["test" := slice_to shuffled_index split]>
                             (<["train" := slice_from shuffled_index split]> d)) self,
         inr tt)
    end.

(** *** [init_data] (lines 152-218)

    [load_data] and [load_label] return the parsed array of a file that
    exists and the empty list otherwise, which is the [option] of the
    [files] record.  Before the call [self.subsets] is empty and
    [self.data] is not set. *)
Definition len_file (f : option (array num)) : nat := length (default [] f).

Definition add_labels (y : array num) : Py t unit :=
  self ← getself;
  assign (set_subsets (λ d, <["y" := label_name self]> d));;
  y_df ← lift (frame_of_array y (label_name self));
  self ← getself;
  assign (set_raw (concat_columns (data self) y_df)).

Definition init_data (fs : files num) (rng : list label → list label) (test_size : Q)
  : Py t unit :=
  self ← getself;
  assign (set_subsets (λ d, <["X" := feat_name self]> d));;
  match train_data fs, plain_data fs with
  | Some _, _ =>
      let X_train := train_data fs in
      let X_test := test_data fs in
      X ← lift (np_concatenate X_train X_test);
      assign (set_subsets (λ d, <["train" := py_range 0 (len_file X_train)]> d));;
      assign (set_subsets (λ d, <["test" := py_range (len_file X_train) (len_file X_test)]> d));;
      df ← lift (frame_of_array X (feat_name self));
      assign (set_raw df);;
      match train_solution fs with
      | Some _ =>
          y ← lift (np_concatenate (train_solution fs) (test_solution fs));
          add_labels y
      | None => mret tt
      end
  | None, Some X =>
      df ← lift (frame_of_array X (feat_name self));
      assign (set_raw df);;
      match plain_solution fs with
      | Some y => add_labels y
      | None => mret tt
      end;;
      train_test_split rng None (Some test_size)
  | None, None => lift (raise (OSError "No .data files"))
  end.

(** *** [get_data] and [set_data] (lines 352-441)

    Both methods start with the same statements, which bind the local
    variables [instances] and [columns] from the subset key [s]; a key
    that matches no branch leaves them unbound. *)
Definition resolve (s : string) (self : t)
  : result (option (list label) * option (list label)) :=
  let all_rows := index (data self) in
  let all_columns := columns (data self) in
  let '(instances, cols) :=
    if str_in s [""; "all"; "data"]
    then (Some all_rows, Some all_columns) else (None, None) in
  if contains_char "_"%char s then
    match split_char "_"%char s with
    | [c; i] =>
        instances ← subscript (subsets self) i;
        cols ← subscript (subsets self) c;
        mret (Some instances, Some cols)
    | _ => raise ValueError
    end
  else if String.eqb s "X" then
    cols ← subscript (subsets self) "X"; mret (Some all_rows, Some cols)
  else if String.eqb s "y" then
    cols ← subscript (subsets self) "y"; mret (Some all_rows, Some cols)
  else if String.eqb s "train" then
    instances ← subscript (subsets self) "train"; mret (Some instances, Some all_columns)
  else if String.eqb s "test" then
    instances ← subscript (subsets self) "test"; mret (Some instances, Some all_columns)
  else mret (instances, cols).

(** [get_data(s, processed)].  The [verbose] flag only prints a warning
    and the [array] flag only converts the returned frame. *)
Definition get_data (s : string) (processed : bool) (self : t) : result (DataFrame num) :=
  '(instances, cols) ← resolve s self;
  instances ← local instances;
  cols ← local cols;
  loc (if processed then processed_data self else data self) instances cols.

(** [set_data(values, s, processed)]. *)
Definition set_data (values : DataFrame num) (s : string) (processed : bool) : Py t unit :=
  λ self,
    match
      '(instances, cols) ← resolve s self;
      instances ← local instances;
      cols ← local cols;
      if processed
      then df ← loc_set (processed_data self) instances cols values; mret (set_processed df self)
      else df ← loc_set (data self) instances cols values; mret (set_raw df self)
    with
    | inl e => (self, inl e)
    | inr self' => (self', inr tt)
    end.

(** *** [save] (lines 443-490)

    The effect of [save] is the sequence of files it writes, each with
    what is written into it: a table, a list of names, or text.  The
    output directory is created when it does not exist. *)
Inductive payload :=
  | Table (df : DataFrame num)
  | Names (names : list label)
  | Text (s : string).

Definition write_array (path : string) (X : payload) : Py (list (string * payload)) unit :=
  assign (λ log, log ++ [(path, X)]).

(** [str(item)] for a value of the info dictionary. *)
Definition str_info (v : info_value) : string :=
  match v with
  | IInt z => pretty z
  | IStr s => s
  end.

Definition newline : string := String (ascii_of_nat 10) "".

Definition info_lines (d : list (string * info_value)) : string :=
  foldr (λ '(key, item) rest, key +:+ " = " +:+ str_info item +:+ newline +:+ rest) "" d.

(** [name in self.data]: membership among the column labels of the
    frame. *)
Definition in_frame (name : string) (df : DataFrame num) : bool :=
  bool_decide (LStr name ∈ columns df).

Definition save (self : t) (out_path out_name : string) : Py (list (string * payload)) unit :=
  X ← lift (get_data "X" false self);
  write_array (path_join out_path (out_name +:+ ".data")) (Table X);;
  write_array (path_join out_path (out_name +:+ "_feat.name")) (Names (feat_name self));;
  (if in_frame "y" (data self) then
     y ← lift (get_data "y" false self);
     write_array (path_join out_path (out_name +:+ ".solution")) (Table y)
   else mret tt);;
  (* ['X_train' and 'X_test' in self.data] is ['X_test' in self.data] *)
  (if in_frame "X_test" (data self) then
     X_train ← lift (get_data "X_train" false self);
     write_array (path_join out_path (out_name +:+ "_train.data")) (Table X_train);;
     X_test ← lift (get_data "X_test" false self);
     write_array (path_join out_path (out_name +:+ "_test.data")) (Table X_test);;
     (* ['y_train' and 'y_test' in self.data] is ['y_test' in self.data] *)
     (if in_frame "y_test" (data self) then
        y_train ← lift (get_data "y_train" false self);
        write_array (path_join out_path (out_name +:+ "_test.solution")) (Table y_train);;
        y_test ← lift (get_data "y_test" false self);
        write_array (path_join out_path (out_name +:+ "_test.solution")) (Table y_test);;
        write_array (path_join out_path (out_name +:+ "_label.name")) (Names (label_name self))
      else mret tt)
   else mret tt);;
  write_array (path_join out_path (out_name +:+ "_public.info")) (Text (info_lines (info self))).

(** *** [choose_sets] (lines 866-890)

    The [try] block keeps a key when [get_data] returns on it and drops
    it, with a message, when [get_data] raises. *)
Definition choose_sets (self : t) (sets : list string) : list string * list string :=
  foldl (λ '(x_sets, y_sets) s,
           match get_data s false self with
           | inr _ => if contains_char "y"%char s then (x_sets, y_sets ++ [s])
                      else (x_sets ++ [s], y_sets)
           | inl _ => (x_sets, y_sets)
           end) ([], []) sets.

(** A dataset as the constructor leaves it: the subset dictionary has
    the feature columns and the two row selections, these are labels of
    the raw table, and there are no more feature types than columns. *)
Definition well_formed (self : t) : Prop :=
  ∃ features train test,
    subsets self !! "X" = Some features ∧
    subsets self !! "train" = Some train ∧
    subsets self !! "test" = Some test ∧
    features ⊆ columns (data self) ∧
    train ⊆ index (data self) ∧
    test ⊆ index (data self) ∧
    (length (feat_type self) ≤ length (columns (data self)))%nat.

(** What the stages need of the current state of the object: the same,
    with the processed table in place of the raw one. *)
Definition ready (self : t) : Prop :=
  ∃ features train test,
    subsets self !! "X" = Some features ∧
    subsets self !! "train" = Some train ∧
    subsets self !! "test" = Some test ∧
    features ⊆ columns (processed_data self) ∧
    train ⊆ index (processed_data self) ∧
    test ⊆ index (processed_data self) ∧
    index (data self) ⊆ index (processed_data self) ∧
    (length (feat_type self) ≤ length (columns (data self)))%nat.

(** Two states of one object that differ at most in the processed
    table. *)
Definition same_raw (a b : t) : Prop :=
  subsets b = subsets a ∧ feat_name b = feat_name a ∧ label_name b = label_name a ∧
  data b = data a ∧ info b = info a ∧ feat_type b = feat_type a.

(** The same, with the processed table keeping its row index and its
    columns. *)
Definition same_rows (a b : t) : Prop :=
  same_raw a b ∧
  index (processed_data b) = index (processed_data a) ∧
  columns (processed_data b) = columns (processed_data a).

(** *** The preprocessing stages (lines 533-681) *)
Section Stages.
Context {P M : Type}.
Context (imp : imputation_module num) (nrm : normalization_module num P)
        (enc : encoding_module num M).

(** [how == name] for an argument that is a string or [None]. *)
Definition is_str (how : option string) (name : string) : bool :=
  match how with
  | Some s => String.eqb s name
  | None => false
  end.

(** [how is None or how in ['None', 'none']]. *)
Definition is_none (how : option string) : bool :=
  match how with
  | Some s => str_in s ["None"; "none"]
  | None => true
  end.

(** [self.data.columns[[i for i, j in enumerate(self.feat_type) if p(j)]].values] *)
Definition columns_where (p : string → bool) (self : t) : result (list label) :=
  mapM (M := result) (λ '(i, j), item (columns (data self)) i)
       (filter (λ '(i, j), p j = true) (enumerate (feat_type self))).

Definition _impute (data : DataFrame num) (cols : list label) (how : option string)
  : result (DataFrame num) :=
  let imputed_data := data in
  if is_str how "remove" then
    inr (imputation_remove imp imputed_data cols)
  else if is_str how "median" then
    inr (foldl (λ imputed_data column, imputation_median imp imputed_data column) imputed_data cols)
  else if is_str how "mean" then
    inr (foldl (λ imputed_data column, imputation_mean imp imputed_data column) imputed_data cols)
  else if is_str how "most" then
    inr (foldl (λ imputed_data column, imputation_most imp imputed_data column) imputed_data cols)
  else if is_none how then
    inr imputed_data
  else raise (OSError (default "" how +:+ " imputation is not taken in charge")).

(** [imputation] first builds the local frame [data] from a copy of the
    processed features, reading the object only, and then writes it
    back. *)
Definition imputed (binary categorical numerical : option string) (self : t)
  : result (DataFrame num) :=
  data ← get_data "X" true self;
  binary_columns ← columns_where (λ j, String.eqb j "Binary") self;
  data ← _impute data binary_columns binary;
  categorical_columns ← columns_where (λ j, String.eqb j "Categorical") self;
  data ← _impute data categorical_columns categorical;
  numerical_columns ← columns_where (λ j, String.eqb j "Numerical") self;
  _impute data numerical_columns numerical.

Definition imputation (binary categorical numerical : option string) : Py t (DataFrame num) :=
  data ← reading (imputed binary categorical numerical);
  set_data data "X" true;;
  self ← getself;
  mret (processed_data self).

(** The body of the loop of [normalization] for one column. *)
Definition normalize_column (norm : option string) (frames : DataFrame num * DataFrame num)
    (column : label) : DataFrame num * DataFrame num :=
  let '(train, test) := frames in
  if is_str norm "standard" then
    let '(train, (mean, std)) := normalization_standard nrm train column None None in
    let '(test, _) := normalization_standard nrm test column (Some mean) (Some std) in
    (train, test)
  else if is_str norm "min-max" then
    let '(train, (mini, maxi)) := normalization_min_max nrm train column None None in
    let '(test, _) := normalization_min_max nrm test column (Some mini) (Some maxi) in
    (train, test)
  else (train, test).

Definition normalization (norm : option string) : Py t (DataFrame num) :=
  train ← reading (get_data "X_train" true);
  test ← reading (get_data "X_test" true);
  numerical_columns ← reading (columns_where (λ j, String.eqb j "Numerical"));
  let '(train, test) := foldl (normalize_column norm) (train, test) numerical_columns in
  set_data train "X_train" true;;
  set_data test "X_test" true;;
  self ← getself;
  mret (processed_data self).

(** The local variable [f] of [encoding]: bound by the branch that
    matches [code], unbound when none does. *)
Definition encoder (code : option string)
  : option (DataFrame num → label → option M → DataFrame num * M) :=
  if is_str code "one-hot" then Some (encoding_one_hot enc)
  else if is_str code "likelihood" then Some (encoding_likelihood enc)
  else if is_str code "label" then Some (encoding_label enc)
  else None.

(** The body of the loop of [encoding] for one column. *)
Definition encode_column (f : option (DataFrame num → label → option M → DataFrame num * M))
    (column : label) (frames : DataFrame num * DataFrame num)
  : result (DataFrame num * DataFrame num) :=
  let '(train, test) := frames in
  f ← local f;
  let '(train, mapping) := f train column None in
  let '(test, _) := f test column (Some mapping) in
  mret (train, test).

Definition encoding (code : option string) : Py t (DataFrame num) :=
  train ← reading (get_data "X_train" true);
  test ← reading (get_data "X_test" true);
  cols ← reading (columns_where (λ j, String.eqb j "Binary" || String.eqb j "Categorical"));
  let f := encoder code in
  '(train, test) ← lift (for_each cols (encode_column f) (train, test));
  set_data train "X_train" true;;
  set_data test "X_test" true;;
  self ← getself;
  mret (processed_data self).

(** [process_data(norm, code, missing)]. *)
Definition process_data (norm code : option string) (missing : missing_arg)
  : Py t (DataFrame num) :=
  assign (λ self, set_processed (data self) self);;
  encoding code;;
  match missing with
  | MissingOne how => imputation how how how
  | MissingList hows =>
      binary ← lift (item hows 0);
      categorical ← lift (item hows 1);
      numerical ← lift (item hows 2);
      imputation binary categorical numerical
  end;;
  normalization norm;;
  self ← getself;
  mret (processed_data self).

(** The call [process_data()] with the default arguments
    [norm='standard', code='label', missing=['most', 'most', 'median']]. *)
Definition process_data_default : Py t (DataFrame num) :=
  process_data (Some "standard") (Some "label")
               (MissingList [Some "most"; Some "most"; Some "median"]).

End Stages.
End Class.

Arguments t : clear implicits.
Arguments payload : clear implicits.
End AutoML.

(** ** [code/auto_ml/comparator.py]: class [Comparator]

    A comparator keeps references to the two datasets it is given, so the
    datasets live in a heap of objects addressed by identity, and two
    references may name the same object.  The statistics that
    [compute_descriptors] and [compute_comparison_matrix] delegate to
    numerical libraries are left open, as is the [descriptors] dictionary
    of the datasets that the former fills; the world records that they
    were computed. *)
Module Comparator.
Section Class.
Context {num P M : Type}.
Context (imp : imputation_module num) (nrm : normalization_module num P)
        (enc : encoding_module num M).
Context {Dist Matrix : Type}.
(** The distances between the descriptors of two datasets, and the
    per-column comparison metrics of two datasets. *)
Context (descriptor_distances : AutoML.t num → AutoML.t num → result Dist).
Context (comparison_metrics : AutoML.t num → AutoML.t num → result Matrix).

Inductive metric := DescriptorDistances | ComparisonMatrix.

(** The heap of dataset objects and the metrics computed so far. *)
Record world := mk_world {
  heap : nat → AutoML.t num;
  computed : list metric
}.

(** Two worlds with the same metrics computed, in which every dataset
    differs at most in its processed table. *)
Definition same_but_processed (w w' : world) : Prop :=
  computed w' = computed w ∧ ∀ ds, AutoML.same_raw (heap w ds) (heap w' ds).

(** Calling a method on the dataset object at address [ds]. *)
Definition on {A} (ds : nat) (m : Py (AutoML.t num) A) : Py world A :=
  λ w, let '(obj, r) := m (heap w ds) in
       (mk_world (<[ds := obj]> (heap w)) (computed w), r).

Definition record_metric (m : metric) : Py world unit :=
  assign (λ w, mk_world (heap w) (computed w ++ [m])).

(** The attributes of a [Comparator] object. *)
Record t := mk {
  ds1 : nat;
  ds2 : nat;
  descriptors_dist : Dist;
  comparison_matrix : Matrix
}.

(** The keyword arguments that [Comparator.process_data] passes on to
    [AutoML.process_data]; an absent one takes the default of the
    callee. *)
Record kwargs := mk_kwargs {
  kw_norm : option (option string);
  kw_code : option (option string);
  kw_missing : option missing_arg
}.

Definition no_kwargs : kwargs := mk_kwargs None None None.

Definition AutoML_process_data (kw : kwargs) : Py (AutoML.t num) (DataFrame num) :=
  AutoML.process_data imp nrm enc
    (default (Some "standard") (kw_norm kw))
    (default (Some "label") (kw_code kw))
    (default (MissingList [Some "most"; Some "most"; Some "median"]) (kw_missing kw)).

(** [process_data] with its keyword arguments (lines 51-55) *)
Definition process_data (ds1 ds2 : nat) (kw : kwargs) : Py world unit :=
  on ds1 (AutoML_process_data kw);;
  on ds2 (AutoML_process_data kw);;
  mret tt.

(** [d[key]] on the info dictionary. *)
Definition info_item (d : list (string * info_value)) (key : string) : result info_value :=
  match list_find (λ kv, kv.1 = key) d with
  | Some (_, (_, v)) => inr v
  | None => raise KeyError
  end.

(** [compute_descriptors()] (lines 76-93) *)
Definition compute_descriptors (ds1 ds2 : nat) : Py world Dist :=
  w ← getself;
  record_metric DescriptorDistances;;
  lift (descriptor_distances (heap w ds1) (heap w ds2)).

(** [compute_comparison_matrix()] (lines 95-119) *)
Definition compute_comparison_matrix (ds1 ds2 : nat) : Py world Matrix :=
  w ← getself;
  record_metric ComparisonMatrix;;
  lift (comparison_metrics (heap w ds1) (heap w ds2)).

(** [Comparator(ds1, ds2)] (lines 11-43) *)
Definition __init__ (ds1 ds2 : nat) : Py world t :=
  process_data ds1 ds2 no_kwargs;;
  w ← getself;
  n1 ← lift (info_item (AutoML.info (heap w ds1)) "feat_num");
  n2 ← lift (info_item (AutoML.info (heap w ds2)) "feat_num");
  (if bool_decide (n1 = n2) then mret tt else lift (raise AssertionError));;
  (* the test for equal datasets only prints a message *)
  _ ← lift (AutoML.get_data "" false (heap w ds1));
  _ ← lift (AutoML.get_data "" false (heap w ds2));
  dist ← compute_descriptors ds1 ds2;
  _ ← lift (AutoML.get_data "X" false (heap w ds1));
  matrix ← compute_comparison_matrix ds1 ds2;
  mret (mk ds1 ds2 dist matrix).

(** *** [classify] (lines 122-154)

    The classifier is any object with [fit(X, y)] and [score(X, y)];
    [shuffled l] is the order in which [random.shuffle] leaves the list
    [l].  Both methods of the classifier may raise. *)
Record classifier (Model Score : Type) := {
  clf_fit : list (list (cell num)) → list nat → result Model;
  clf_score : Model → list (list (cell num)) → list nat → result Score
}.

(** [df.values]: the rows of a frame, in index order. *)
Definition values (df : DataFrame num) : list (list (cell num)) :=
  (λ r, (λ c, cell_at df (r, c)) <$> columns df) <$> index df.

Definition classify {Model Score} (clf : classifier Model Score)
    (shuffled : list (list (cell num) * nat) → list (list (cell num) * nat))
    (ds1 ds2 : nat) (w : world) : result Score :=
  ds1_train ← AutoML.get_data "X_train" true (heap w ds1);
  ds1_test ← AutoML.get_data "X_test" true (heap w ds1);
  ds2_train ← AutoML.get_data "X_train" true (heap w ds2);
  ds2_test ← AutoML.get_data "X_test" true (heap w ds2);
  let X1_train := values ds1_train in
  let X2_train := values ds2_train in
  let X_train := X1_train ++ X2_train in
  let y_train := replicate (length X1_train) 0 ++ replicate (length X2_train) 1 in
  let combined := shuffled (zip X_train y_train) in
  (* unzipping an empty list yields nothing, and the unpacking into two
     targets fails *)
  '(X_train, y_train) ← match combined with
                        | [] => raise ValueError
                        | _ => inr (combined.*1, combined.*2)
                        end;
  let X1_test := values ds1_test in
  let X2_test := values ds2_test in
  let X_test := X1_test ++ X2_test in
  let y_test := replicate (length X1_test) 0 ++ replicate (length X2_test) 1 in
  model ← clf_fit _ _ clf X_train y_train;
  clf_score _ _ clf model X_test y_test.

End Class.
End Comparator.

(** ** [code/processing/processing.py]: [get_types] *)
Module Processing.

(** Equality of two cells as values; all missing values count as one. *)
Definition cell_eqb (a b : cell Q) : bool :=
  match a, b with
  | Num x, Num y => Qeq_bool x y
  | NaN, NaN => true
  | Str s, Str s' => String.eqb s s'
  | _, _ => false
  end.

(** [x[column]]: the values of a column, in row order. *)
Definition column_values {num} (df : DataFrame num) (column : label) : list (cell num) :=
  (λ r, cell_at df (r, column)) <$> index df.

(** [Series.unique()]: the distinct values in order of first appearance. *)
Fixpoint unique (l : list (cell Q)) : list (cell Q) :=
  match l with
  | [] => []
  | a :: l' => a :: filter (λ b, cell_eqb a b = false) (unique l')
  end.

(** What [x[column].sum()] evaluates to, including the [except] clause:
    a number for a numeric column (missing values are skipped), the
    concatenation for a column of strings, and minus infinity when adding
    the values raises. *)
Inductive total := TNum (q : Q) | TStr (s : string) | TNegInf.

Definition is_str_cell {num} (a : cell num) : bool :=
  match a with Str _ => true | _ => false end.

Definition number_of (a : cell Q) : Q := match a with Num x => x | _ => 0%Q end.
Definition string_of (a : cell Q) : string := match a with Str s => s | _ => "" end.

Definition column_sum (l : list (cell Q)) : total :=
  if forallb (λ a, negb (is_str_cell a)) l then
    TNum (foldr (λ a acc, (number_of a + acc)%Q) 0%Q l)
  else if forallb is_str_cell l then
    TStr (foldr (λ a acc, string_of a +:+ acc) "" l)
  else TNegInf.

(** [sum == q] for a number [q]. *)
Definition total_is (sum : total) (q : Q) : bool :=
  match sum with
  | TNum x => Qeq_bool x q
  | _ => false
  end.

(** [n*(n-1)/2] and [n*(n+1)/2]. *)
Definition half_product (n : nat) (m : Z) : Q := (inject_Z (Z.of_nat n * m) / 2)%Q.

(** The type appended for one column. *)
Definition column_type (col : list (cell Q)) : string :=
  let n := length (unique col) in
  let sum := column_sum col in
  if Nat.eqb n 2 then "Binary"
  else if (Nat.ltb 2 n && (total_is sum (half_product n (Z.of_nat n - 1)) ||
                           total_is sum (half_product n (Z.of_nat n + 1))))
          || existsb is_str_cell col
  then "Categorical"
  else "Numerical".

Definition get_types (df : DataFrame Q) : list string :=
  (λ column, column_type (column_values df column)) <$> columns df.

End Processing.

(** ** [code/auto_ml/auto_ml.py]: [get_type_problem] and [init_info] *)
Module AutoMLInfo.

(** [d[key] = v] on a dictionary, which keeps insertion order: the value
    of a key already present is replaced where it stands, a new key goes
    to the end. *)
Fixpoint dict_set (key : string) (v : info_value) (d : list (string * info_value))
  : list (string * info_value) :=
  match d with
  | [] => [(key, v)]
  | (k, x) :: d' => if String.eqb k key then (k, v) :: d' else (k, x) :: dict_set key v d'
  end.

(** [key in d.keys()]. *)
Definition dict_has (key : string) (d : list (string * info_value)) : bool :=
  bool_decide (key ∈ d.*1).

(** [self.info[key] = v]. *)
Definition set_info (key : string) (v : info_value) : Py (AutoML.t Q) unit :=
  assign (λ self, AutoML.mk (AutoML.subsets self) (AutoML.feat_name self)
                    (AutoML.label_name self) (AutoML.data self)
                    (AutoML.processed_data self) (dict_set key v (AutoML.info self))
                    (AutoML.feat_type self)).

(** [np.unique]: the distinct values, sorted. *)
Fixpoint insert_unique (x : Q) (l : list Q) : list Q :=
  match l with
  | [] => [x]
  | y :: l' => if Qeq_bool x y then l
               else if Qle_bool x y then x :: l
               else y :: insert_unique x l'
  end.

Definition np_unique (l : list Q) : list Q := foldr insert_unique [] l.

Definition int_of_nat (n : nat) : info_value := IInt (Z.of_nat n).

(** [solution.shape[1]] on the rows of a file: the length of a row. *)
Definition shape1 (rows : list (list Q)) : nat :=
  match rows with row :: _ => length row | [] => 0 end.

(** *** [get_type_problem] (lines 492-531)

    [solution] is the solution file at the path the method is given,
    absent or parsed by [read_csv] into rows of numbers; the file is
    taken to hold numbers only.  [read_csv] raises on a path that does not
    exist and on a file without data. *)
Definition get_type_problem (solution : option (list (list Q))) : Py (AutoML.t Q) info_value :=
  self ← getself;
  (if negb (dict_has "task" (AutoML.info self)) && AutoML.in_frame "y_train" (AutoML.data self)
   then
     solution ← lift (match solution return result (list (list Q)) with
                      | Some [] => raise ValueError
                      | Some rows => inr rows
                      | None => raise (OSError "No such file or directory")
                      end);
     let target_num := shape1 solution in
     set_info "target_num" (int_of_nat target_num);;
     if Nat.eqb target_num 1 then
       let solution := concat solution in
       let nbr_unique_values := length (np_unique solution) in
       if negb (Qle_bool (inject_Z (Z.of_nat (length solution)) / 8)
                         (inject_Z (Z.of_nat nbr_unique_values)))
       then
         set_info "label_num" (int_of_nat nbr_unique_values);;
         if Nat.eqb nbr_unique_values 2 then
           set_info "task" (IStr "binary.classification");;
           set_info "target_type" (IStr "binary")
         else
           set_info "task" (IStr "multiclass.classification");;
           set_info "target_type" (IStr "categorical")
       else
         set_info "label_num" (IInt 0);;
         set_info "task" (IStr "regression");;
         set_info "target_type" (IStr "numerical")
     else
       set_info "label_num" (int_of_nat target_num);;
       set_info "target_type" (IStr "binary");;
       if existsb (λ row, Z.ltb 1 (foldr Z.add 0%Z (py_int <$> row))) solution
       then set_info "task" (IStr "multilabel.classification")
       else set_info "task" (IStr "multiclass.classification")
   else set_info "task" (IStr "Unknown"));;
  self ← getself;
  lift (Comparator.info_item (AutoML.info self) "task").

(** [expr1 == expr2] under [assert]. *)
Definition assert_eq (a b : info_value) : Py (AutoML.t Q) unit :=
  if bool_decide (a = b) then mret tt else lift (raise AssertionError).

(** *** [init_info] (lines 294-349)

    [info_file] is the info file, absent or read into its rows of a key
    and a value, already stripped and with the values that read as
    integers converted; [solution] is the solution file whose path the
    method hands to [get_type_problem]; [basename] is the attribute
    [self.basename]. *)
Definition init_info (basename : string) (info_file : option (list (string * info_value)))
    (solution : option (list (list Q))) : Py (AutoML.t Q) (list (string * info_value)) :=
  match info_file with
  | Some rows =>
      assign (λ self, AutoML.mk (AutoML.subsets self) (AutoML.feat_name self)
                        (AutoML.label_name self) (AutoML.data self)
                        (AutoML.processed_data self)
                        (foldl (λ d '(key, v), dict_set key v d) [] rows)
                        (AutoML.feat_type self))
  | None =>
      get_type_problem solution;;
      set_info "format" (IStr "dense");;
      set_info "is_sparse" (IInt 0);;
      X_train ← reading (AutoML.get_data "X_train" false);
      set_info "train_num" (int_of_nat (length (index X_train)));;
      set_info "feat_num" (int_of_nat (length (columns X_train)));;
      self ← getself;
      (if bool_decide (is_Some (AutoML.subsets self !! "y")) then
         y_train ← reading (AutoML.get_data "y_train" false);
         set_info "target_num" (int_of_nat (length (columns y_train)));;
         X_test ← reading (AutoML.get_data "X_test" false);
         set_info "test_num" (int_of_nat (length (index X_test)));;
         self ← getself;
         train_num ← lift (Comparator.info_item (AutoML.info self) "train_num");
         y_train ← reading (AutoML.get_data "y_train" false);
         assert_eq train_num (int_of_nat (length (index y_train)));;
         feat_num ← lift (Comparator.info_item (AutoML.info self) "feat_num");
         X_test ← reading (AutoML.get_data "X_test" false);
         assert_eq feat_num (int_of_nat (length (columns X_test)));;
         test_num ← lift (Comparator.info_item (AutoML.info self) "test_num");
         y_test ← reading (AutoML.get_data "y_test" false);
         assert_eq test_num (int_of_nat (length (index y_test)));;
         target_num ← lift (Comparator.info_item (AutoML.info self) "target_num");
         y_test ← reading (AutoML.get_data "y_test" false);
         assert_eq target_num (int_of_nat (length (columns y_test)))
       else mret tt);;
      set_info "usage" (IStr "No info file");;
      set_info "name" (IStr basename);;
      set_info "has_categorical" (IInt 0);;
      set_info "has_missing" (IInt 0);;
      set_info "feat_type" (IStr "mixed");;
      set_info "time_budget" (IInt 600);;
      self ← getself;
      task ← lift (Comparator.info_item (AutoML.info self) "task");
      set_info "metric" (if bool_decide (task = IStr "regression")
                         then IStr "r2_metric" else IStr "auc_metric")
  end;;
  self ← getself;
  mret (AutoML.info self).

End AutoMLInfo.

(** ** The helper modules, from their description

    [imputation.py], [normalization.py] and [encoding.py] are imported by
    [auto_ml.py]; the definitions below follow the description of the
    policies in section 4.3 of the specification. *)

Module SpecImputation.

(** The numbers of a column, missing values and strings left out. *)
Definition numbers {num} (l : list (cell num)) : list num :=
  omap (λ a, match a with Num x => Some x | _ => None end) l.

Fixpoint insert_sorted (x : Q) (l : list Q) : list Q :=
  match l with
  | [] => [x]
  | y :: l' => if Qle_bool x y then x :: l else y :: insert_sorted x l'
  end.

Definition sorted (l : list Q) : list Q := foldr insert_sorted [] l.

(** Modelled from the spec: the statistics of the policies [median],
    [mean] and [most-frequent], over the non-missing values they are
    given; none exists for a column without a number. *)
Definition median_of (l : list Q) : option Q :=
  let s := sorted l in
  let n := length s in
  if Nat.odd n then s !! (n / 2)%nat
  else a ← s !! (n / 2 - 1)%nat; b ← s !! (n / 2)%nat; Some ((a + b) / 2)%Q.

Definition mean_of (l : list Q) : option Q :=
  match l with
  | [] => None
  | _ => Some (foldr Qplus 0%Q l / inject_Z (Z.of_nat (length l)))%Q
  end.

Definition count_of (x : Q) (l : list Q) : nat := length (filter (λ y, Qeq_bool x y = true) l).

(** The most frequent number, the smallest one among equally frequent
    numbers. *)
Definition most_of (l : list Q) : option Q :=
  foldr (λ x best,
           match best with
           | Some b => if Nat.ltb (count_of b l) (count_of x l) then Some x else Some b
           | None => Some x
           end) None (reverse (sorted l)).

(** Modelled from the spec: filling the missing entries of a column
    with one fixed value. *)
Definition fill (df : DataFrame Q) (column : label) (v : Q) : DataFrame Q :=
  mkDF (index df) (columns df)
    (foldr (λ r m, match cell_at df (r, column) with
                   | NaN => <[(r, column) := Num v]> m
                   | _ => m
                   end) (cells df) (index df)).

Definition fill_with (stat : list Q → option Q) (df : DataFrame Q) (column : label)
  : DataFrame Q :=
  match stat (numbers (Processing.column_values df column)) with
  | Some v => fill df column v
  | None => df
  end.

Definition is_missing {num} (a : cell num) : bool :=
  match a with NaN => true | _ => false end.

(** Modelled from the spec: the policy [remove] drops the rows that
    have a missing value in one of the columns. *)
Definition remove {num} (df : DataFrame num) (cols : list label) : DataFrame num :=
  let kept := filter (λ r, forallb (λ c, negb (is_missing (cell_at df (r, c)))) cols = true)
                     (index df) in
  mkDF kept (columns df) (filter (λ kv, kv.1.1 ∈ kept) (cells df)).

(** Modelled from the spec: the module [imputation], whose source file
    [imputation.py] is not part of the repository sources.  [remove]
    drops the rows with a missing value in the given columns; [median],
    [mean] and [most] compute the statistic over the non-missing values
    of the column of the frame they are given and fill its missing
    entries with that value. *)
Definition module : imputation_module Q := {|
  imputation_remove := remove;
  imputation_median := fill_with median_of;
  imputation_mean := fill_with mean_of;
  imputation_most := fill_with most_of
|}.

End SpecImputation.

Module SpecNormalization.
Local Open Scope R_scope.

Definition sum_of (l : list R) : R := foldr Rplus 0 l.

Definition mean_of (l : list R) : R := sum_of l / INR (length l).

(** The sample standard deviation, as [Series.std()] computes it. *)
Definition std_of (l : list R) : R :=
  sqrt (sum_of ((λ x, (x - mean_of l) * (x - mean_of l)) <$> l) / (INR (length l) - 1)).

Definition min_of (l : list R) : R := match l with [] => 0 | x :: l' => foldr Rmin x l' end.
Definition max_of (l : list R) : R := match l with [] => 0 | x :: l' => foldr Rmax x l' end.

(** Applying [f] to every number of a column. *)
Definition map_cell (f : R → R) (a : cell R) : cell R :=
  match a with Num x => Num (f x) | _ => a end.

Definition map_column (f : R → R) (df : DataFrame R) (column : label) : DataFrame R :=
  mkDF (index df) (columns df)
    (foldr (λ r m, <[(r, column) := map_cell f (cell_at df (r, column))]> m)
           (cells df) (index df)).

Definition column_numbers (df : DataFrame R) (column : label) : list R :=
  SpecImputation.numbers (Processing.column_values df column).

(** Modelled from the spec: [standard] subtracts the mean and divides
    by the standard deviation; the pair is computed on the frame at hand
    unless it is passed in, and it is returned. *)
Definition standard (df : DataFrame R) (column : label) (mean std : option R)
  : DataFrame R * (R * R) :=
  let mean := default (mean_of (column_numbers df column)) mean in
  let std := default (std_of (column_numbers df column)) std in
  (map_column (λ x, (x - mean) / std) df column, (mean, std)).

(** Modelled from the spec: [min_max] subtracts the minimum and divides
    by the range, with the pair handled as in [standard]. *)
Definition min_max (df : DataFrame R) (column : label) (mini maxi : option R)
  : DataFrame R * (R * R) :=
  let mini := default (min_of (column_numbers df column)) mini in
  let maxi := default (max_of (column_numbers df column)) maxi in
  (map_column (λ x, (x - mini) / (maxi - mini)) df column, (mini, maxi)).

(** The map that [standard] applies when it fits the pair on the column
    [c] of the frame [train]. *)
Definition fit (train : DataFrame R) (c : label) : R → R :=
  λ x, (x - mean_of (column_numbers train c)) / std_of (column_numbers train c).

(** Modelled from the spec: the module [normalization], whose source
    file [normalization.py] is not part of the repository sources.
    [standard] subtracts the mean and divides by the standard deviation,
    [min_max] subtracts the minimum and divides by the range; each
    computes its pair on the frame it is given unless the pair is passed
    in, and returns the pair it used. *)
Definition module : normalization_module R R := {|
  normalization_standard := standard;
  normalization_min_max := min_max
|}.

End SpecNormalization.

(** Helper modules that hand every frame back as it is.  They serve to
    run the container on concrete data where a statement holds whatever
    the helpers compute. *)
Definition plain_normalization (num : Type) : normalization_module num unit := {|
  normalization_standard := λ df _ _ _, (df, (tt, tt));
  normalization_min_max := λ df _ _ _, (df, (tt, tt))
|}.

Definition plain_encoding (num : Type) : encoding_module num unit := {|
  encoding_one_hot := λ df _ _, (df, tt);
  encoding_likelihood := λ df _ _, (df, tt);
  encoding_label := λ df _ _, (df, tt)
|}.

(** ** Concrete datasets *)
Module Examples.

Definition q (z : Z) : cell Q := Num (inject_Z z).

(** The constructor [AutoML(input_dir, basename, test_size)] (lines
    16-72) for a directory that holds both name files and the info file:
    [feat_name], [label_name] and [info] are what these files contain,
    [types] is the content of the type file if there is one. *)
Definition construct (fs : files Q) (rng : list label → list label) (test_size : Q)
    (feat_name label_name : list label) (info : list (string * info_value))
    (types : option (list string)) : result (AutoML.t Q) :=
  let self := AutoML.mk ∅ feat_name label_name (mkDF [] [] ∅) (mkDF [] [] ∅) info [] in
  let '(self, r) := AutoML.init_data fs rng test_size self in
  _ ← r;
  let self := AutoML.set_processed (AutoML.data self) self in
  types ← match types with
          | Some types => inr types
          | None => X ← AutoML.get_data "X" false self; mret (Processing.get_types X)
          end;
  mret (AutoML.set_feat_type types self).

(** A draw of [random.sample] that moves the last [k] rows to the front. *)
Definition last_first (k : nat) (l : list label) : list label :=
  drop (length l - k) l ++ take (length l - k) l.

(** The scenario of section 8 of the specification: ten rows, a binary
    column and a numerical column [1, 2, NaN, 4, ..., 10], and a test
    size of 0.2.  The draw puts rows 8 and 9 in the test partition. *)
Definition ten_rows : array Q :=
  [ [q 0; q 1]; [q 1; q 2]; [q 0; NaN]; [q 1; q 4]; [q 0; q 5];
    [q 1; q 6]; [q 0; q 7]; [q 1; q 8]; [q 0; q 9]; [q 1; q 10] ].

Definition scenario_result : result (AutoML.t Q) :=
  construct (Build_files Q None None None None (Some ten_rows) None)
            (last_first 2) (2 # 10) [LStr "b"; LStr "x"] []
            [("feat_num", IInt 2); ("train_num", IInt 8); ("test_num", IInt 2)] None.

Definition blank : AutoML.t Q := AutoML.mk ∅ [] [] (mkDF [] [] ∅) (mkDF [] [] ∅) [] [].

Definition scenario : AutoML.t Q :=
  Eval vm_compute in match scenario_result with inr ds => ds | inl _ => blank end.

(** Three rows and one feature: with a test size of 0.2 the test
    partition is empty. *)
Definition three_rows_result : result (AutoML.t Q) :=
  construct (Build_files Q None None None None (Some [[q 5]; [q 6]; [q 7]]) None)
            (last_first 1) (2 # 10) [LStr "a"] []
            [("feat_num", IInt 1); ("train_num", IInt 3); ("test_num", IInt 0)] None.

Definition three_rows : AutoML.t Q :=
  Eval vm_compute in match three_rows_result with inr ds => ds | inl _ => blank end.

(** Four rows, one feature and one label column named [class]. *)
Definition labelled_result : result (AutoML.t Q) :=
  construct (Build_files Q None None None None
               (Some [[q 5]; [q 6]; [q 7]; [q 8]]) (Some [[q 0]; [q 1]; [q 0]; [q 1]]))
            (last_first 1) (1 # 4) [LStr "a"] [LStr "class"]
            [("task", IStr "binary.classification"); ("feat_num", IInt 1)] None.

Definition labelled : AutoML.t Q :=
  Eval vm_compute in match labelled_result with inr ds => ds | inl _ => blank end.

(** The object as [__init__] hands it to [init_data]. *)
Definition start (feat_name label_name : list label) : AutoML.t Q :=
  AutoML.mk ∅ feat_name label_name (mkDF [] [] ∅) (mkDF [] [] ∅) [] [].

Definition ten_files : files Q := Build_files Q None None None None (Some ten_rows) None.

(** Pre-split files: one train row and one test row in the data files,
    two train rows and one test row in the solution files. *)
Definition more_labels : files Q :=
  Build_files Q (Some [[q 1]]) (Some [[q 2]]) (Some [[q 0]; [q 1]]) (Some [[q 0]]) None None.

(** A heap with the ten-row dataset at address 0 and the three-row
    dataset at every other address; no metric computed yet. *)
Definition two_datasets : Comparator.world :=
  Comparator.mk_world (λ ds, match ds with 0 => scenario | _ => three_rows end) [].

(** A dataset over the real numbers: one numerical feature [x] with the
    values 1, 2, 3 in the train rows and 5 in the test row. *)
Definition real_table : DataFrame R :=
  match frame_of_array [[Num 1%R]; [Num 2%R]; [Num 3%R]; [Num 5%R]] [LStr "x"] with
  | inr df => df
  | inl _ => mkDF [] [] ∅
  end.

Definition real_dataset : AutoML.t R :=
  AutoML.mk
    (<["test" := py_range 3 1]> (<["train" := py_range 0 3]> (<["X" := [LStr "x"]]> ∅)))
    [LStr "x"] [] real_table real_table
    [("feat_num", IInt 1)] ["Numerical"].

(** Four rows whose two features are named [X_test] and [y_test] and
    whose label is named [y]. *)
Definition odd_names_result : result (AutoML.t Q) :=
  construct (Build_files Q None None None None
               (Some [[q 5; q 1]; [q 6; q 2]; [q 7; q 3]; [q 8; q 4]])
               (Some [[q 0]; [q 1]; [q 0]; [q 1]]))
            (last_first 1) (1 # 4) [LStr "X_test"; LStr "y_test"] [LStr "y"]
            [("feat_num", IInt 2)] None.

Definition odd_names : AutoML.t Q :=
  Eval vm_compute in match odd_names_result with inr ds => ds | inl _ => blank end.

End Examples.

(** ** The type rule of section 4.1, in its own words

    A second definition of the classification, following the description
    and not the code: the two are compared below. *)
Module TypeRule.

Inductive ftype := Binary | Categorical | Numerical.

Definition name (t : ftype) : string :=
  match t with
  | Binary => "Binary"
  | Categorical => "Categorical"
  | Numerical => "Numerical"
  end.

(** A sum is a number or minus infinity. *)
Inductive extended := Finite (q : Q) | MinusInfinity.

(** The sum of a column; a column with a string value has no sum and is
    given minus infinity. *)
Definition sum (col : list (cell Q)) : extended :=
  if existsb Processing.is_str_cell col then MinusInfinity
  else Finite (foldr (λ a acc, (Processing.number_of a + acc)%Q) 0%Q col).

Definition equals (s : extended) (q : Q) : bool :=
  match s with
  | Finite x => Qeq_bool x q
  | MinusInfinity => false
  end.

Definition unique_count (col : list (cell Q)) : nat := length (Processing.unique col).

(** The sum of [n] consecutive integers starting at 0, or at 1. *)
Definition run_sum (n : nat) (start : Z) : Q :=
  (inject_Z (Z.of_nat n * (Z.of_nat n - 1 + 2 * start)) / 2)%Q.

Definition infer (col : list (cell Q)) : ftype :=
  let n := unique_count col in
  if bool_decide (n = 2) then Binary
  else if existsb Processing.is_str_cell col
          || (bool_decide (2 < n) && (equals (sum col) (run_sum n 0) || equals (sum col) (run_sum n 1)))
  then Categorical
  else Numerical.

End TypeRule.

(** * Properties *)

(** ** Python and pandas *)

Lemma bind_inr {A B} (m : result A) (f : A → result B) (b : B) :
  m ≫= f = inr b → ∃ a, m = inr a ∧ f a = inr b.
Proof. destruct m as [e|a]; simpl; [discriminate | eauto]. Qed.

Lemma py_range_length a n : length (py_range a n) = n.
Proof. unfold py_range. by rewrite length_fmap, length_seq. Qed.

Lemma py_range_NoDup a n : NoDup (py_range a n).
Proof.
  unfold py_range. apply NoDup_fmap_2; [|apply NoDup_seq].
  intros i j Hij. injection Hij. lia.
Qed.

Lemma py_range_app a n m : py_range a n ++ py_range (a + n) m = py_range a (n + m).
Proof. unfold py_range. by rewrite <- fmap_app, <- seq_app. Qed.

Lemma elem_of_py_range a n l :
  l ∈ py_range a n ↔ ∃ i, l = LInt (Z.of_nat i) ∧ a ≤ i < a + n.
Proof.
  unfold py_range. rewrite list_elem_of_fmap. split.
  - intros (i & -> & Hi). apply elem_of_seq in Hi. eauto.
  - intros (i & -> & Hi). exists i. split; [done|]. by apply elem_of_seq.
Qed.

Lemma py_range_disjoint a n m : py_range a n ## py_range (a + n) m.
Proof.
  intros l H1 H2. apply elem_of_py_range in H1 as (i & -> & Hi).
  apply elem_of_py_range in H2 as (j & Hj & Hj'). injection Hj. lia.
Qed.

(** The two slices [l[:k]] and [l[k:]] cut a list in two, whatever [k]. *)
Lemma slices_app {A} (l : list A) k : slice_to l k ++ slice_from l k = l.
Proof. apply take_drop. Qed.

Lemma slices_disjoint {A} (l : list A) k : NoDup l → slice_to l k ## slice_from l k.
Proof.
  intros Hl. rewrite <- (slices_app l k) in Hl.
  apply NoDup_app in Hl as (_ & Hl & _). intros x H1 H2. by apply (Hl x).
Qed.

(** [int] is the floor on a number that is not negative. *)
Lemma py_int_floor (q : Q) : (0 <= q)%Q → py_int q = Qfloor q.
Proof.
  destruct q as [a b]. unfold Qle, py_int, Qfloor. simpl. intros H.
  apply Z.quot_div_nonneg; lia.
Qed.

(** ** Type inference *)

Lemma no_string_forall (col : list (cell Q)) :
  existsb Processing.is_str_cell col = false →
  forallb (λ a, negb (Processing.is_str_cell a)) col = true.
Proof.
  induction col as [|a col IH]; simpl; [done|].
  intros H. apply orb_false_iff in H as [Ha Hcol]. by rewrite Ha, IH.
Qed.

Lemma run_sum_0 n : TypeRule.run_sum n 0 = Processing.half_product n (Z.of_nat n - 1).
Proof. unfold TypeRule.run_sum, Processing.half_product. do 3 f_equal. lia. Qed.

Lemma run_sum_1 n : TypeRule.run_sum n 1 = Processing.half_product n (Z.of_nat n + 1).
Proof. unfold TypeRule.run_sum, Processing.half_product. do 3 f_equal. lia. Qed.

(** On a column without a string the sum of the code is the sum of the
    rule. *)
Lemma total_is_equals (col : list (cell Q)) q :
  existsb Processing.is_str_cell col = false →
  Processing.total_is (Processing.column_sum col) q = TypeRule.equals (TypeRule.sum col) q.
Proof.
  intros H. unfold Processing.column_sum, TypeRule.sum.
  by rewrite H, (no_string_forall col H).
Qed.

(** A column that mixes strings with other values cannot be summed: the
    code takes minus infinity, which equals no triangular number. *)
Lemma column_sum_mixed (col : list (cell Q)) :
  existsb Processing.is_str_cell col = true →
  forallb Processing.is_str_cell col = false →
  Processing.column_sum col = Processing.TNegInf.
Proof.
  intros H1 H2. unfold Processing.column_sum. rewrite H2.
  destruct (forallb (λ a, negb (Processing.is_str_cell a)) col) eqn:E; [|done].
  exfalso. clear H2. induction col as [|a col IH]; simpl in *; [done|].
  apply andb_true_iff in E as [Ea Ecol]. destruct (Processing.is_str_cell a); [done|].
  auto.
Qed.

Lemma column_type_infer (col : list (cell Q)) :
  Processing.column_type col = TypeRule.name (TypeRule.infer col).
Proof.
  unfold Processing.column_type, TypeRule.infer, TypeRule.unique_count.
  set (n := length (Processing.unique col)).
  destruct (Nat.eqb_spec n 2) as [Hn|Hn].
  - by rewrite bool_decide_eq_true_2.
  - rewrite bool_decide_eq_false_2 by done.
    destruct (existsb Processing.is_str_cell col) eqn:Hs.
    + by rewrite orb_true_r.
    + rewrite orb_false_r. simpl.
      rewrite !total_is_equals, run_sum_0, run_sum_1 by done.
      destruct (Nat.ltb_spec 2 n).
      * rewrite bool_decide_eq_true_2 by done. simpl.
        by destruct (_ || _).
      * rewrite bool_decide_eq_false_2 by lia. done.
Qed.

(** C5.  [get_types] gives every column exactly one of the three types
    [Binary], [Categorical], [Numerical], and the one it gives is the one
    of the rule taken in order: two unique values make the column
    Binary; failing that a string value, or more than two unique values
    whose sum is that of a run of consecutive integers from 0 or from 1,
    make it Categorical; anything else is Numerical.  A column whose
    values cannot be added has minus infinity for its sum in the code. *)
Theorem get_types_follows_rule (df : DataFrame Q) :
  Processing.get_types df
    = (λ column, TypeRule.name (TypeRule.infer (Processing.column_values df column)))
        <$> columns df
  ∧ (∀ ty, ty ∈ Processing.get_types df →
           ty = "Binary" ∨ ty = "Categorical" ∨ ty = "Numerical")
  ∧ (∀ col, existsb Processing.is_str_cell col = true →
            forallb Processing.is_str_cell col = false →
            Processing.column_sum col = Processing.TNegInf).
Proof.
  assert (Processing.get_types df
    = (λ column, TypeRule.name (TypeRule.infer (Processing.column_values df column)))
        <$> columns df) as Heq.
  { unfold Processing.get_types. apply list_fmap_ext. intros _ column _.
    apply column_type_infer. }
  split; [exact Heq|]. split; [|exact column_sum_mixed].
  intros ty Hty. rewrite Heq in Hty. apply list_elem_of_fmap in Hty as (c & -> & _).
  destruct (TypeRule.infer _); simpl; auto.
Qed.

Lemma get_types_follows_rule_witness :
  Processing.get_types (AutoML.data Examples.scenario) = ["Binary"; "Numerical"] ∧
  Processing.column_sum [Str "a"; Examples.q 1] = Processing.TNegInf.
Proof.
  destruct (get_types_follows_rule (AutoML.data Examples.scenario)) as (Hrule & _ & Hsum).
  split; [rewrite Hrule; vm_compute; reflexivity|].
  apply Hsum; reflexivity.
Defined.

(** ** Construction: the train and test selections *)

Ltac py_step :=
  unfold mbind, Py_bind, getself, assign, lift, reading, mret, Py_ret; simpl.

Lemma frame_of_array_inr {num} (X : array num) names df :
  frame_of_array X names = inr df →
  index df = py_range 0 (length X) ∧ columns df = names.
Proof.
  unfold frame_of_array. destruct (forallb _ X); [|discriminate].
  by intros [= <-].
Qed.

Lemma np_concatenate_inr {num} (a b : option (array num)) z :
  np_concatenate a b = inr z → ∃ x y, a = Some x ∧ b = Some y ∧ z = x ++ y.
Proof.
  unfold np_concatenate. destruct a as [x|], b as [y|]; try discriminate.
  destruct (forallb _ _); [|discriminate]. intros [= <-]. eauto.
Qed.

(** The selections that [train_test_split] stores, for a draw that is a
    permutation of the row index. *)
Lemma train_test_split_partition {num} rng test_size (self : AutoML.t num) :
  rng (index (AutoML.data self)) ≡ₚ index (AutoML.data self) →
  NoDup (index (AutoML.data self)) →
  let after := (AutoML.train_test_split rng None (Some test_size) self).1 in
  let shuffled := rng (index (AutoML.data self)) in
  let n := length (index (AutoML.data self)) in
  (AutoML.train_test_split rng None (Some test_size) self).2 = inr () ∧
  AutoML.data after = AutoML.data self ∧
  ∃ train test,
    AutoML.subsets after !! "train" = Some train ∧
    AutoML.subsets after !! "test" = Some test ∧
    train ## test ∧ train ++ test ≡ₚ index (AutoML.data self) ∧
    ((0 <= test_size)%Q →
       test = take (Z.to_nat (Qfloor (test_size * inject_Z (Z.of_nat n)))) shuffled ∧
       train = drop (Z.to_nat (Qfloor (test_size * inject_Z (Z.of_nat n)))) shuffled).
Proof.
  intros Hperm Hnodup. unfold AutoML.train_test_split. simpl.
  split; [done|]. split; [done|].
  eexists _, _. split; [by rewrite lookup_insert_ne, lookup_insert_eq|].
  split; [by rewrite lookup_insert_eq|].
  set (shuffled := rng _) in *. set (split := py_int _).
  assert (NoDup shuffled) as Hsh by (by rewrite Hperm).
  split; [|split].
  - intros x H1 H2. by apply (slices_disjoint shuffled split Hsh x).
  - etrans; [|exact Hperm]. etrans; [apply Permutation_app_comm|].
    by rewrite slices_app.
  - intros Hpos. subst split. rewrite py_int_floor.
    + set (k := Qfloor _). assert (0 <= k)%Z as Hk.
      { subst k. change 0%Z with (Qfloor (inject_Z 0)). apply Qfloor_resp_le.
        apply Qmult_le_0_compat; [done|]. unfold Qle; simpl; lia. }
      unfold slice_to, slice_from, slice_pos.
      destruct (Z.ltb_spec k 0); [lia|done].
    + apply Qmult_le_0_compat; [done|]. unfold Qle; simpl; lia.
Qed.

(** C3, as amended.  After [init_data], the train and test selections
    are disjoint and together make up the row index of the table,
    provided the solution files of a pre-split dataset hold no more rows
    than its data files; without pre-split files and for a test size that
    is not negative, the test selection is the first
    [floor(test_size * n)] entries of the shuffled row index and the
    train selection is the rest. *)
Theorem init_data_partition {num} (fs : files num) rng test_size (self0 self : AutoML.t num) :
  (∀ l, rng l ≡ₚ l) →
  (is_Some (train_data fs) →
   (AutoML.len_file (train_solution fs) + AutoML.len_file (test_solution fs)
      ≤ AutoML.len_file (train_data fs) + AutoML.len_file (test_data fs))%nat) →
  AutoML.init_data fs rng test_size self0 = (self, inr ()) →
  ∃ train test,
    AutoML.subsets self !! "train" = Some train ∧
    AutoML.subsets self !! "test" = Some test ∧
    train ## test ∧
    train ++ test ≡ₚ index (AutoML.data self) ∧
    (train_data fs = None → (0 <= test_size)%Q →
     let shuffled := rng (index (AutoML.data self)) in
     let k := Z.to_nat (Qfloor (test_size
                  * inject_Z (Z.of_nat (length (index (AutoML.data self)))))) in
     test = take k shuffled ∧ train = drop k shuffled).
Proof.
  intros Hrng Hrows. unfold AutoML.init_data. py_step.
  destruct (train_data fs) as [xtr|] eqn:Htr.
  - (* pre-split files *)
    destruct (np_concatenate (Some xtr) (test_data fs)) as [e|X] eqn:HX; [discriminate|].
    simpl. apply np_concatenate_inr in HX as (? & xte & [= <-] & Hte & ->).
    rewrite Hte in *.
    destruct (frame_of_array _ _) as [e|df] eqn:Hdf; [discriminate|]. simpl.
    apply frame_of_array_inr in Hdf as [Hidx _]. rewrite length_app in Hidx.
    unfold AutoML.len_file in *. simpl in *.
    assert (py_range 0 (length xtr) ## py_range (length xtr) (length xte)) as Hdisj
      by apply (py_range_disjoint 0).
    assert (py_range 0 (length xtr) ++ py_range (length xtr) (length xte)
            ≡ₚ index df) as Hall by (by rewrite Hidx, <- py_range_app).
    destruct (train_solution fs) as [ytr|] eqn:Hytr.
    + destruct (np_concatenate (Some ytr) (test_solution fs)) as [e|y] eqn:Hy;
        [discriminate|].
      apply np_concatenate_inr in Hy as (? & yte & [= <-] & Hyte & ->).
      unfold AutoML.add_labels. py_step.
      destruct (frame_of_array _ (AutoML.label_name self0)) as [e|ydf] eqn:Hydf;
        [discriminate|]. simpl.
      apply frame_of_array_inr in Hydf as [Hyidx _]. rewrite length_app in Hyidx.
      intros [= <-]. simpl.
      eexists _, _. split; [by rewrite !lookup_insert_ne, lookup_insert_eq by done|].
      split; [by rewrite lookup_insert_ne, lookup_insert_eq by done|].
      split; [done|]. split; [|done].
      rewrite Hyte in Hrows. simpl in Hrows. specialize (Hrows (mk_is_Some _ _ eq_refl)).
      rewrite Hyidx, Hidx, !py_range_length.
      destruct (Nat.leb_spec (length ytr + length yte) (length xtr + length xte)); [|lia].
      by rewrite <- Hidx.
    + intros [= <-]. simpl.
      eexists _, _. split; [by rewrite lookup_insert_ne, lookup_insert_eq by done|].
      split; [by rewrite lookup_insert_eq|]. done.
  - (* one data file: random split *)
    destruct (plain_data fs) as [X|] eqn:HX; [|discriminate].
    destruct (frame_of_array X _) as [e|df] eqn:Hdf; [discriminate|]. simpl.
    apply frame_of_array_inr in Hdf as [Hidx _].
    assert (∀ s2 : AutoML.t num, NoDup (index (AutoML.data s2)) →
              AutoML.train_test_split rng None (Some test_size) s2 = (self, inr ()) →
              ∃ train test,
                AutoML.subsets self !! "train" = Some train ∧
                AutoML.subsets self !! "test" = Some test ∧
                train ## test ∧
                train ++ test ≡ₚ index (AutoML.data self) ∧
                (@None (array num) = None → (0 <= test_size)%Q →
                 let shuffled := rng (index (AutoML.data self)) in
                 let k := Z.to_nat (Qfloor (test_size
                            * inject_Z (Z.of_nat (length (index (AutoML.data self)))))) in
                 test = take k shuffled ∧ train = drop k shuffled)) as Hsplit.
    { intros s2 Hnd Hs2.
      destruct (train_test_split_partition rng test_size s2 (Hrng _) Hnd)
        as (_ & Hdata & train & test & Htrain & Htest & Hdisj & Hall & Hfloor).
      rewrite Hs2 in *. simpl in *.
      exists train, test. rewrite Hdata. repeat (split; [done|]).
      intros _ Hpos. by apply Hfloor. }
    destruct (plain_solution fs) as [y|].
    + unfold AutoML.add_labels. py_step.
      destruct (frame_of_array y _) as [e|ydf] eqn:Hydf; [discriminate|]. simpl.
      apply frame_of_array_inr in Hydf as [Hyidx _].
      apply Hsplit. simpl.
      destruct (_ <=? _)%nat; [rewrite Hidx|rewrite Hyidx]; apply py_range_NoDup.
    + apply Hsplit. simpl. rewrite Hidx. apply py_range_NoDup.
Qed.

Lemma last_first_permutation k (l : list label) : Examples.last_first k l ≡ₚ l.
Proof.
  unfold Examples.last_first. etrans; [apply Permutation_app_comm|].
  by rewrite take_drop.
Qed.

Lemma init_data_partition_witness :
  let self := (AutoML.init_data Examples.ten_files (Examples.last_first 2) (2 # 10)
                 (Examples.start [LStr "b"; LStr "x"] [])).1 in
  ∃ train test,
    AutoML.subsets self !! "train" = Some train ∧
    AutoML.subsets self !! "test" = Some test ∧
    train ## test ∧
    train ++ test ≡ₚ index (AutoML.data self) ∧
    (train_data Examples.ten_files = None → (0 <= 2 # 10)%Q →
     let shuffled := Examples.last_first 2 (index (AutoML.data self)) in
     let k := Z.to_nat (Qfloor ((2 # 10)
                  * inject_Z (Z.of_nat (length (index (AutoML.data self)))))) in
     test = take k shuffled ∧ train = drop k shuffled).
Proof.
  apply (init_data_partition Examples.ten_files (Examples.last_first 2) (2 # 10)
           (Examples.start [LStr "b"; LStr "x"] [])).
  - apply last_first_permutation.
  - simpl. intros [? [=]].
  - vm_compute. reflexivity.
Defined.

(** The claim of C3 fails as it stands.  With pre-split files whose
    solution files hold more rows than the data files the table has a row
    that is in neither selection; and with a negative test size the test
    selection is everything but the last entries of the shuffled index. *)
Lemma init_data_partition_counterexample :
  (∃ self,
     AutoML.init_data Examples.more_labels (λ l, l) (2 # 10)
       (Examples.start [LStr "a"] [LStr "class"]) = (self, inr ()) ∧
     AutoML.subsets self !! "train" = Some [LInt 0] ∧
     AutoML.subsets self !! "test" = Some [LInt 1] ∧
     index (AutoML.data self) = [LInt 0; LInt 1; LInt 2] ∧
     ¬ ([LInt 0] ++ [LInt 1] ≡ₚ index (AutoML.data self))) ∧
  (∃ self,
     AutoML.init_data Examples.ten_files (λ l, l) (- (2 # 10))
       (Examples.start [LStr "b"; LStr "x"] []) = (self, inr ()) ∧
     Qfloor (- (2 # 10) * inject_Z 10) = (-2)%Z ∧
     AutoML.subsets self !! "test"
       = Some (LInt <$> [0; 1; 2; 3; 4; 5; 6; 7]%Z) ∧
     AutoML.subsets self !! "train" = Some (LInt <$> [8; 9]%Z)).
Proof.
  split.
  - eexists. split; [vm_compute; reflexivity|].
    repeat (split; [vm_compute; reflexivity|]).
    simpl. intros H. apply Permutation_length in H. discriminate.
  - eexists. split; [vm_compute; reflexivity|].
    repeat split; vm_compute; reflexivity.
Qed.

(** ** Subset keys *)

(** A key without an underscore that is none of the recognised keys
    leaves [instances] unbound, and reading it raises. *)
Lemma get_data_unbound {num} (s : string) processed (self : AutoML.t num) :
  contains_char "_" s = false →
  s ∉ [""; "all"; "data"; "X"; "y"; "train"; "test"] →
  AutoML.get_data s processed self = inl UnboundLocalError.
Proof.
  intros Hu Hs. unfold AutoML.get_data, AutoML.resolve. rewrite Hu.
  unfold str_in. rewrite bool_decide_eq_false_2 by set_solver.
  destruct (String.eqb_spec s "X") as [->|_]; [exfalso; apply Hs; set_solver|].
  destruct (String.eqb_spec s "y") as [->|_]; [exfalso; apply Hs; set_solver|].
  destruct (String.eqb_spec s "train") as [->|_]; [exfalso; apply Hs; set_solver|].
  destruct (String.eqb_spec s "test") as [->|_]; [exfalso; apply Hs; set_solver|].
  done.
Qed.

(** A key with an underscore raises when it does not split in two, or
    when one of its two parts is not a key of [subsets]. *)
Lemma get_data_compound_raises {num} (s : string) processed (self : AutoML.t num) :
  contains_char "_" s = true →
  (∀ c i, split_char "_" s = [c; i] →
          AutoML.subsets self !! i = None ∨ AutoML.subsets self !! c = None) →
  ∃ e, AutoML.get_data s processed self = inl e.
Proof.
  intros Hu Hparts. unfold AutoML.get_data, AutoML.resolve. rewrite Hu.
  destruct (str_in s _); simpl;
    (destruct (split_char "_" s) as [|c [|i [|? ?]]]; simpl; eauto;
     unfold subscript; destruct (Hparts c i eq_refl) as [-> | ->]; simpl; eauto;
     destruct (AutoML.subsets self !! i); simpl; eauto).
Qed.

(** C6, at the failing input.  On a dataset of three rows built with a
    test size of 0.2 the test selection is empty, and the key
    [test_train], which is not among the recognised keys, raises nothing:
    [get_data] returns a frame with the train rows and no column. *)
Theorem get_data_unknown_key_returns :
  AutoML.subsets Examples.three_rows !! "test" = Some [] ∧
  AutoML.get_data "test_train" false Examples.three_rows
    = inr (mkDF [LInt 2; LInt 0; LInt 1] [] ∅).
Proof. split; vm_compute; reflexivity. Qed.

(** ** Saving *)

(** C8, at the failing input.  The dataset has a label column and a
    train/test split, and [save] writes the features, the feature names
    and the info file only: no solution file, no label names, no train or
    test file. *)
Theorem save_writes_three_files :
  AutoML.subsets Examples.labelled !! "y" = Some [LStr "class"] ∧
  AutoML.subsets Examples.labelled !! "train" = Some [LInt 0; LInt 1; LInt 2] ∧
  AutoML.subsets Examples.labelled !! "test" = Some [LInt 3] ∧
  (AutoML.save Examples.labelled "out" "d" []).2 = inr () ∧
  (AutoML.save Examples.labelled "out" "d" []).1.*1
    = ["out/d.data"; "out/d_feat.name"; "out/d_public.info"].
Proof. repeat split; vm_compute; reflexivity. Qed.

(** Where the three tests of [save] do pass, because the table has
    columns named [y], [X_test] and [y_test], the train labels go to the
    file of the test labels, which the test labels then overwrite: no
    file is ever named [_train.solution]. *)
Lemma save_odd_names :
  (AutoML.save Examples.odd_names "out" "d" []).1.*1
    = ["out/d.data"; "out/d_feat.name"; "out/d.solution"; "out/d_train.data";
       "out/d_test.data"; "out/d_test.solution"; "out/d_test.solution";
       "out/d_label.name"; "out/d_public.info"].
Proof. vm_compute. reflexivity. Qed.

(** ** Policies *)

(** [_impute] raises on a policy name it does not know. *)
Lemma _impute_unknown {num} (imp : imputation_module num) data cols (how : string) :
  how ∉ ["remove"; "median"; "mean"; "most"; "None"; "none"] →
  ∃ msg, AutoML._impute imp data cols (Some how) = inl (OSError msg).
Proof.
  intros H. unfold AutoML._impute, AutoML.is_str, AutoML.is_none, str_in.
  destruct (String.eqb_spec how "remove") as [->|_]; [exfalso; apply H; set_solver|].
  destruct (String.eqb_spec how "median") as [->|_]; [exfalso; apply H; set_solver|].
  destruct (String.eqb_spec how "mean") as [->|_]; [exfalso; apply H; set_solver|].
  destruct (String.eqb_spec how "most") as [->|_]; [exfalso; apply H; set_solver|].
  rewrite bool_decide_eq_false_2 by set_solver. eauto.
Qed.

(** [_impute] hands the frame back under the policy [None]. *)
Lemma _impute_none {num} (imp : imputation_module num) data cols how :
  how ∈ [None; Some "None"; Some "none"] →
  AutoML._impute imp data cols how = inr data.
Proof.
  intros H. repeat (apply elem_of_cons in H as [->|H]; [reflexivity|]).
  by apply elem_of_nil in H.
Qed.

(** C4, at the failing inputs.  On the ten-row dataset, [normalization]
    with the unknown policy [robust] raises nothing and returns the
    processed table as it was, and [encoding] with the policy [none], or
    [None], raises [UnboundLocalError] where it should leave the data
    alone: its local [f] is bound for three names only. *)
Theorem unknown_policies_at_scenario {P M} (nrm : normalization_module Q P)
    (enc : encoding_module Q M) :
  AutoML.normalization nrm (Some "robust") Examples.scenario
    = (Examples.scenario, inr (AutoML.processed_data Examples.scenario)) ∧
  (AutoML.encoding enc (Some "none") Examples.scenario).2 = inl UnboundLocalError ∧
  (AutoML.encoding enc None Examples.scenario).2 = inl UnboundLocalError.
Proof. repeat split; vm_compute; reflexivity. Qed.

(** ** Imputation *)

(** C1, at the failing input.  In the ten-row dataset the missing value
    of column [x] sits in row 2, a train row; the median of the
    non-missing train values is 5, and [imputation] fills the entry with
    6, the median over all ten rows. *)
Theorem imputation_median_at_scenario :
  let after := (AutoML.imputation SpecImputation.module
                  (Some "most") (Some "most") (Some "median") Examples.scenario).1 in
  AutoML.subsets Examples.scenario !! "train" = Some (LInt <$> [0; 1; 2; 3; 4; 5; 6; 7]%Z) ∧
  cell_at (AutoML.processed_data Examples.scenario) (LInt 2, LStr "x") = NaN ∧
  (X_train ← AutoML.get_data "X_train" true Examples.scenario;
   mret (SpecImputation.median_of
           (SpecImputation.numbers (Processing.column_values X_train (LStr "x")))))
    = inr (Some 5%Q) ∧
  cell_at (AutoML.processed_data after) (LInt 2, LStr "x") = Num 6%Q.
Proof. repeat split; vm_compute; reflexivity. Qed.

(** ** What a method leaves in place *)

Section Preserves.
Context {St : Type} (R : relation St) `{!Reflexive R, !Transitive R}.

Lemma preserves_ret {A} (a : A) : preserves R (mret a : Py St A).
Proof. intros st. reflexivity. Qed.

Lemma preserves_lift {A} (r : result A) : preserves R (lift r).
Proof. intros st. reflexivity. Qed.

Lemma preserves_reading {A} (f : St → result A) : preserves R (reading f).
Proof. intros st. reflexivity. Qed.

Lemma preserves_getself : preserves R (getself (St := St)).
Proof. intros st. reflexivity. Qed.

Lemma preserves_bind {A B} (m : Py St A) (f : A → Py St B) :
  preserves R m → (∀ a, preserves R (f a)) → preserves R (m ≫= f).
Proof.
  intros Hm Hf st. unfold mbind, Py_bind. specialize (Hm st).
  destruct (m st) as [st' [e|a]]; simpl in *; [done|].
  etrans; [exact Hm|apply Hf].
Qed.

End Preserves.

(** A step that cannot change the object. *)
Ltac leaf :=
  solve [ first [ apply preserves_ret | apply preserves_lift
                | apply preserves_reading | apply preserves_getself ];
          typeclasses eauto ].

Ltac bind_step := apply preserves_bind; [typeclasses eauto| |intros ?].

Section Rows.
Context {num : Type}.
Implicit Types self : AutoML.t num.

Global Instance same_raw_refl : Reflexive (AutoML.same_raw (num := num)).
Proof. by intros a. Qed.

Global Instance same_raw_trans : Transitive (AutoML.same_raw (num := num)).
Proof.
  intros a b c (?&?&?&?&?&?) (?&?&?&?&?&?). unfold AutoML.same_raw. by repeat split; etrans.
Qed.

Global Instance same_rows_refl : Reflexive (AutoML.same_rows (num := num)).
Proof. by intros a. Qed.

Global Instance same_rows_trans : Transitive (AutoML.same_rows (num := num)).
Proof.
  intros a b c (?&?&?) (?&?&?). split; [by etrans|]. by split; etrans.
Qed.

Lemma loc_set_inr (df : DataFrame num) rows cols v df' :
  loc_set df rows cols v = inr df' →
  index df' = index df ∧ columns df' = columns df.
Proof.
  unfold loc_set. destruct (has_labels _ _ _); [|discriminate]. by intros [= <-].
Qed.

(** Writing into the processed table replaces its cells only. *)
Lemma set_data_same_rows values s :
  preserves AutoML.same_rows (AutoML.set_data (num := num) values s true).
Proof.
  intros self. unfold AutoML.set_data.
  destruct (AutoML.resolve s self) as [e|[instances cols]]; simpl; [done|].
  destruct (local instances) as [e|rows]; simpl; [done|].
  destruct (local cols) as [e|cs]; simpl; [done|].
  destruct (loc_set _ _ _ _) as [e|df] eqn:Hdf; simpl; [done|].
  apply loc_set_inr in Hdf as [Hi Hc]. by repeat split.
Qed.

Context {P M : Type}.
Context (imp : imputation_module num) (nrm : normalization_module num P)
        (enc : encoding_module num M).

Ltac stage := repeat first [ bind_step | apply set_data_same_rows | leaf ].

Lemma encoding_same_rows code : preserves AutoML.same_rows (AutoML.encoding enc code).
Proof.
  unfold AutoML.encoding.
  do 4 (bind_step; [leaf|]).
  destruct a2. stage.
Qed.

Lemma imputation_same_rows binary categorical numerical :
  preserves AutoML.same_rows (AutoML.imputation imp binary categorical numerical).
Proof. unfold AutoML.imputation. stage. Qed.

Lemma normalization_same_rows norm :
  preserves AutoML.same_rows (AutoML.normalization nrm norm).
Proof.
  unfold AutoML.normalization.
  do 3 (bind_step; [leaf|]).
  destruct (foldl _ _ _). stage.
Qed.

(** [process_data] starts from the raw table: whatever the processed
    table held before the call plays no part. *)
Lemma process_data_reset norm code missing self :
  AutoML.process_data imp nrm enc norm code missing self
  = (AutoML.encoding enc code ;;
     match missing with
     | MissingOne how => AutoML.imputation imp how how how
     | MissingList hows =>
         binary ← lift (item hows 0);
         categorical ← lift (item hows 1);
         numerical ← lift (item hows 2);
         AutoML.imputation imp binary categorical numerical
     end ;;
     AutoML.normalization nrm norm ;;
     self ← getself;
     mret (AutoML.processed_data self)) (AutoML.set_processed (AutoML.data self) self).
Proof. reflexivity. Qed.

Lemma process_data_same_rows norm code missing self :
  AutoML.same_rows (AutoML.set_processed (AutoML.data self) self)
    (AutoML.process_data imp nrm enc norm code missing self).1.
Proof.
  rewrite process_data_reset.
  generalize (AutoML.set_processed (AutoML.data self) self). 
  change (preserves AutoML.same_rows
    (AutoML.encoding enc code ;;
     match missing with
     | MissingOne how => AutoML.imputation imp how how how
     | MissingList hows =>
         binary ← lift (item hows 0);
         categorical ← lift (item hows 1);
         numerical ← lift (item hows 2);
         AutoML.imputation imp binary categorical numerical
     end ;;
     AutoML.normalization nrm norm ;;
     self ← getself;
     mret (AutoML.processed_data self))).
  bind_step; [apply encoding_same_rows|].
  bind_step.
  - destruct missing; [apply imputation_same_rows|].
    do 3 (bind_step; [leaf|]).
    apply imputation_same_rows.
  - bind_step; [apply normalization_same_rows|]. stage.
Qed.

Lemma process_data_same_raw norm code missing :
  preserves AutoML.same_raw (AutoML.process_data imp nrm enc norm code missing).
Proof.
  intros self. destruct (process_data_same_rows norm code missing self) as [H _].
  etrans; [|exact H]. done.
Qed.

End Rows.

(** ** Cells after a selection and after an assignment *)

Lemma lookup_foldr_insert {K V} `{Countable K} (f : K → V) (m : gmap K V) (l : list K) k :
  foldr (λ k m, <[k := f k]> m) m l !! k
  = if bool_decide (k ∈ l) then Some (f k) else m !! k.
Proof.
  induction l as [|a l IH]; csimpl; [done|].
  destruct (decide (a = k)) as [->|Hne].
  - rewrite lookup_insert_eq. by rewrite bool_decide_eq_true_2 by (apply elem_of_cons; auto).
  - rewrite lookup_insert_ne, IH by done.
    rewrite (bool_decide_ext (k ∈ a :: l) (k ∈ l)); [done|].
    rewrite elem_of_cons. naive_solver.
Qed.

Lemma lookup_list_to_map_fmap {K V} `{Countable K} (f : K → V) (l : list K) k :
  (list_to_map ((λ k, (k, f k)) <$> l) : gmap K V) !! k
  = if bool_decide (k ∈ l) then Some (f k) else None.
Proof.
  induction l as [|a l IH]; csimpl; [done|].
  destruct (decide (a = k)) as [->|Hne].
  - rewrite lookup_insert_eq. by rewrite bool_decide_eq_true_2 by (apply elem_of_cons; auto).
  - rewrite lookup_insert_ne, IH by done.
    rewrite (bool_decide_ext (k ∈ a :: l) (k ∈ l)); [done|].
    rewrite elem_of_cons. naive_solver.
Qed.

Lemma elem_of_list_prod_pair {A B} (l : list A) (l' : list B) (k : A * B) :
  k ∈ list_prod l l' ↔ k.1 ∈ l ∧ k.2 ∈ l'.
Proof. destruct k as [a b]. rewrite !list_elem_of_In. apply in_prod_iff. Qed.

Section Cells.
Context {num : Type}.
Implicit Types df v : DataFrame num.

Lemma has_labels_true df rows cols :
  has_labels df rows cols = true ↔ rows ⊆ index df ∧ cols ⊆ columns df.
Proof.
  unfold has_labels. rewrite andb_true_iff, !forallb_forall.
  split; intros [Hr Hc]; split; intros x Hx.
  - apply list_elem_of_In, Hr in Hx. by apply bool_decide_eq_true in Hx.
  - apply list_elem_of_In, Hc in Hx. by apply bool_decide_eq_true in Hx.
  - apply bool_decide_eq_true, Hr, list_elem_of_In, Hx.
  - apply bool_decide_eq_true, Hc, list_elem_of_In, Hx.
Qed.

Lemma loc_inr df rows cols df' :
  loc df rows cols = inr df' →
  rows ⊆ index df ∧ cols ⊆ columns df ∧
  index df' = rows ∧ columns df' = cols ∧
  ∀ k, k.1 ∈ rows → k.2 ∈ cols → cell_at df' k = cell_at df k.
Proof.
  unfold loc. destruct (has_labels df rows cols) eqn:Hl; [|discriminate].
  apply has_labels_true in Hl as [Hr Hc]. intros [= <-]. simpl.
  repeat (split; [done|]). intros k Hk1 Hk2. unfold cell_at at 1. simpl.
  rewrite lookup_list_to_map_fmap, bool_decide_eq_true_2; [done|].
  by apply elem_of_list_prod_pair.
Qed.

Lemma loc_set_cell df rows cols v df' k :
  loc_set df rows cols v = inr df' →
  cell_at df' k
  = if bool_decide (k.1 ∈ rows ∧ k.2 ∈ cols) then aligned v k else cell_at df k.
Proof.
  unfold loc_set. destruct (has_labels df rows cols); [|discriminate].
  intros [= <-]. unfold cell_at at 1. simpl. rewrite lookup_foldr_insert.
  rewrite (bool_decide_ext _ _ (elem_of_list_prod_pair rows cols k)).
  by destruct (bool_decide _).
Qed.

Lemma loc_set_succeeds df rows cols v :
  rows ⊆ index df → cols ⊆ columns df → ∃ df', loc_set df rows cols v = inr df'.
Proof.
  intros Hr Hc. unfold loc_set.
  rewrite (proj2 (has_labels_true df rows cols)) by done. eauto.
Qed.

Lemma aligned_missing_row v k : k.1 ∉ index v → aligned v k = NaN.
Proof. intros H. unfold aligned. by rewrite bool_decide_eq_false_2. Qed.

Lemma resolve_X (self : AutoML.t num) :
  AutoML.resolve "X" self
  = cols ← subscript (AutoML.subsets self) "X";
    mret (Some (index (AutoML.data self)), Some cols).
Proof. reflexivity. Qed.

End Cells.

Lemma resolve_compound {num} (self : AutoML.t num) s c i rows cols :
  AutoML.subsets self !! i = Some rows →
  AutoML.subsets self !! c = Some cols →
  contains_char "_" s = true →
  split_char "_" s = [c; i] →
  AutoML.resolve s self = inr (Some rows, Some cols).
Proof.
  intros Hi Hc Hu Hs. unfold AutoML.resolve. rewrite Hu, Hs. unfold subscript.
  rewrite Hi, Hc. by destruct (str_in _ _).
Qed.

(** [imputation] never looks at the train and test selections: with any
    helper module and any policies it leaves the same processed table
    whatever the split is. *)
Lemma imputation_ignores_split {num} (imp : imputation_module num) binary categorical
    numerical (self : AutoML.t num) train test :
  let other := AutoML.set_subsets (λ d, <["test" := test]> (<["train" := train]> d)) self in
  AutoML.processed_data (AutoML.imputation imp binary categorical numerical other).1
  = AutoML.processed_data (AutoML.imputation imp binary categorical numerical self).1.
Proof.
  intros other.
  assert (AutoML.resolve "X" other = AutoML.resolve "X" self) as Hres.
  { rewrite !resolve_X. unfold subscript, other.
    cbn [AutoML.subsets AutoML.set_subsets AutoML.data].
    by rewrite !lookup_insert_ne by done. }
  assert (AutoML.imputed imp binary categorical numerical other
          = AutoML.imputed imp binary categorical numerical self) as Himp.
  { unfold AutoML.imputed, AutoML.get_data. by rewrite Hres. }
  unfold AutoML.imputation, mbind, Py_bind, reading. rewrite Himp.
  destruct (AutoML.imputed _ _ _ _ self) as [e|working]; [done|].
  unfold AutoML.set_data. rewrite Hres.
  destruct (AutoML.resolve "X" self) as [e|[instances cols]]; simpl; [done|].
  destruct (local instances) as [e|rows]; simpl; [done|].
  destruct (local cols) as [e|cs]; simpl; [done|].
  by destruct (loc_set _ _ _ _).
Qed.

(** ** The stages keep the rows of the processed table *)

(** C9.  Encoding, imputation and normalization, under any policy and
    whatever they return or raise, leave the row index and the columns of
    the processed table, the subset dictionary and the raw table as they
    were, so the train and test selections address the same rows after
    every stage.  In particular a row that the working frame of
    [imputation] no longer has (dropped by the policy [remove]) is still
    in the processed table afterwards, with the missing value in every
    feature column. *)
Theorem stages_keep_row_index {num P M} (imp : imputation_module num)
    (nrm : normalization_module num P) (enc : encoding_module num M) (self : AutoML.t num) :
  (∀ code, AutoML.same_rows self (AutoML.encoding enc code self).1) ∧
  (∀ binary categorical numerical,
     AutoML.same_rows self (AutoML.imputation imp binary categorical numerical self).1) ∧
  (∀ norm, AutoML.same_rows self (AutoML.normalization nrm norm self).1) ∧
  (∀ binary categorical numerical working features r column,
     AutoML.imputed imp binary categorical numerical self = inr working →
     AutoML.subsets self !! "X" = Some features →
     r ∈ index (AutoML.data self) → column ∈ features → r ∉ index working →
     let after := (AutoML.imputation imp binary categorical numerical self).1 in
     r ∈ index (AutoML.processed_data after) ∧
     cell_at (AutoML.processed_data after) (r, column) = NaN).
Proof.
  split; [intros; apply encoding_same_rows|].
  split; [intros; apply imputation_same_rows|].
  split; [intros; apply normalization_same_rows|].
  intros binary categorical numerical working features r column Hw HX Hr Hcol Hgone after.
  assert (r ∈ index (AutoML.processed_data self) ∧
          ∃ df, loc_set (AutoML.processed_data self) (index (AutoML.data self))
                  features working = inr df) as [Hrp [df Hdf]].
  { unfold AutoML.imputed in Hw. apply bind_inr in Hw as (X & HgetX & _).
    unfold AutoML.get_data in HgetX. rewrite resolve_X in HgetX.
    unfold subscript in HgetX. rewrite HX in HgetX. simpl in HgetX.
    apply loc_inr in HgetX as (Hrows & Hcols & _).
    split; [by apply Hrows|]. by apply loc_set_succeeds. }
  assert (AutoML.processed_data after = df) as ->.
  { subst after. unfold AutoML.imputation. py_step. rewrite Hw. simpl.
    unfold AutoML.set_data. rewrite resolve_X. unfold subscript. rewrite HX. simpl.
    by rewrite Hdf. }
  split.
  - by rewrite (proj1 (loc_set_inr _ _ _ _ _ Hdf)).
  - rewrite (loc_set_cell _ _ _ _ _ _ Hdf). simpl.
    rewrite bool_decide_eq_true_2 by done. by apply aligned_missing_row.
Qed.

Lemma stages_keep_row_index_witness :
  let self := Examples.scenario in
  let after := (AutoML.imputation SpecImputation.module None None (Some "remove") self).1 in
  LInt 2 ∈ index (AutoML.processed_data after) ∧
  cell_at (AutoML.processed_data after) (LInt 2, LStr "b") = NaN.
Proof.
  pose proof (stages_keep_row_index SpecImputation.module (plain_normalization Q)
                (plain_encoding Q) Examples.scenario) as (_ & _ & _ & H).
  apply (H None None (Some "remove")
           (match AutoML.imputed SpecImputation.module None None (Some "remove")
                    Examples.scenario with
            | inr working => working
            | inl _ => mkDF [] [] ∅
            end)
           [LStr "b"; LStr "x"]).
  - vm_compute. reflexivity.
  - vm_compute. reflexivity.
  - eapply bool_decide_eq_true_1. vm_compute. reflexivity.
  - eapply bool_decide_eq_true_1. vm_compute. reflexivity.
  - eapply bool_decide_eq_false_1. vm_compute. reflexivity.
Defined.

(** ** The pipeline runs to the end on a well-formed dataset *)

Section Returns.
Context {num P M : Type}.
Context (imp : imputation_module num) (nrm : normalization_module num P)
        (enc : encoding_module num M).
Implicit Types self : AutoML.t num.

Abbreviation ready := (AutoML.ready (num := num)).

Lemma ready_same_rows self self' : AutoML.same_rows self self' → ready self → ready self'.
Proof.
  intros ((Hs & _ & _ & Hd & _ & Ht) & Hi & Hc) (f & tr & te & ?).
  exists f, tr, te. rewrite Hs, Hd, Ht, Hi, Hc. done.
Qed.

Lemma mapM_returns {A B} (f : A → result B) (l : list A) :
  (∀ x, x ∈ l → ∃ y, f x = inr y) → ∃ ys, mapM (M := result) f l = inr ys.
Proof.
  induction l as [|a l IH]; intros Hf; [by eexists|].
  destruct (Hf a) as [y Hy]; [by left|].
  destruct IH as [ys Hys]; [intros x Hx; apply Hf; by right|].
  exists (y :: ys). simpl. rewrite Hy. simpl. by rewrite Hys.
Qed.

Lemma elem_of_enumerate {A} (l : list A) i x : (i, x) ∈ enumerate l → (i < length l)%nat.
Proof.
  unfold enumerate. intros H. apply elem_of_zip_l in H. by apply elem_of_seq in H as [_ ?].
Qed.

Lemma columns_where_returns p self :
  (length (AutoML.feat_type self) ≤ length (columns (AutoML.data self)))%nat →
  ∃ cols, AutoML.columns_where p self = inr cols.
Proof.
  intros Hlen. unfold AutoML.columns_where. apply mapM_returns.
  intros [i j] Hij. apply list_elem_of_filter in Hij as [_ Hij].
  apply elem_of_enumerate in Hij. unfold item.
  destruct (lookup_lt_is_Some_2 (columns (AutoML.data self)) i) as [c ->]; [lia|eauto].
Qed.

Lemma get_data_returns s self rows cols :
  AutoML.resolve s self = inr (Some rows, Some cols) →
  rows ⊆ index (AutoML.processed_data self) →
  cols ⊆ columns (AutoML.processed_data self) →
  ∃ df, AutoML.get_data s true self = inr df.
Proof.
  intros Hres Hr Hc. unfold AutoML.get_data. rewrite Hres. simpl. unfold loc.
  rewrite (proj2 (has_labels_true _ rows cols)) by done. eauto.
Qed.

Lemma set_data_returns values s self rows cols :
  AutoML.resolve s self = inr (Some rows, Some cols) →
  rows ⊆ index (AutoML.processed_data self) →
  cols ⊆ columns (AutoML.processed_data self) →
  (AutoML.set_data values s true self).2 = inr ().
Proof.
  intros Hres Hr Hc. unfold AutoML.set_data. rewrite Hres. simpl.
  destruct (loc_set_succeeds (AutoML.processed_data self) rows cols values Hr Hc) as [df ->].
  done.
Qed.

(** Once a method has returned, what follows runs on the state it left. *)
Lemma bind_returns {St A B} (R : relation St) (Q : St → Prop) (m : Py St A) (f : A → Py St B)
    st :
  preserves R m → (∀ st', R st st' → Q st → Q st') → Q st →
  (∃ a, (m st).2 = inr a) →
  (∀ a st', Q st' → ∃ b, (f a st').2 = inr b) →
  ∃ b, ((m ≫= f) st).2 = inr b.
Proof.
  intros Hm HQ Hst [a Ha] Hf. unfold mbind, Py_bind. specialize (Hm st).
  destruct (m st) as [st' r]. simpl in *. subst r. apply Hf. by apply (HQ st').
Qed.

Lemma for_each_encode_returns f (cols : list label) frames :
  ∃ out, for_each cols (AutoML.encode_column (num := num) (M := M) (Some f)) frames = inr out.
Proof.
  revert frames. induction cols as [|c cols IH]; intros [train test]; simpl; [eauto|].
  destruct (f train c None) as [train' mapping].
  destruct (f test c (Some mapping)) as [test' ?]. simpl. apply IH.
Qed.

Lemma resolve_ready self :
  ready self →
  ∃ features train test,
    AutoML.resolve "X" self = inr (Some (index (AutoML.data self)), Some features) ∧
    AutoML.resolve "X_train" self = inr (Some train, Some features) ∧
    AutoML.resolve "X_test" self = inr (Some test, Some features) ∧
    features ⊆ columns (AutoML.processed_data self) ∧
    train ⊆ index (AutoML.processed_data self) ∧
    test ⊆ index (AutoML.processed_data self) ∧
    index (AutoML.data self) ⊆ index (AutoML.processed_data self).
Proof.
  intros (f & tr & te & HX & Htr & Hte & ? & ? & ? & ? & _). exists f, tr, te.
  split; [|split; [|split]]; [| |by apply (resolve_compound self _ "X" "test")|done].
  - rewrite resolve_X. unfold subscript. by rewrite HX.
  - by apply (resolve_compound self _ "X" "train").
Qed.

(** Writing the two partitions back and returning the processed table. *)
Lemma write_back_returns train test self :
  ready self →
  ∃ df, ((AutoML.set_data train "X_train" true ;;
          AutoML.set_data test "X_test" true ;;
          self ← getself; mret (AutoML.processed_data self)) self).2 = inr df.
Proof.
  intros Hready.
  eapply (bind_returns AutoML.same_rows ready); [apply set_data_same_rows| |done| |].
  { intros st' Hrel Hq. exact (ready_same_rows _ _ Hrel Hq). }
  { destruct (resolve_ready self Hready) as (f & tr & te & _ & Hr & _ & ? & ? & _).
    exists (). by eapply set_data_returns. }
  intros _ s1 Hs1.
  eapply (bind_returns AutoML.same_rows ready); [apply set_data_same_rows| |done| |].
  { intros st' Hrel Hq. exact (ready_same_rows _ _ Hrel Hq). }
  { destruct (resolve_ready s1 Hs1) as (f & tr & te & _ & _ & Hr & ? & _ & ? & _).
    exists (). by eapply set_data_returns. }
  intros _ s2 _. by eexists.
Qed.

Lemma encoding_returns self :
  ready self → ∃ df, (AutoML.encoding enc (Some "label") self).2 = inr df.
Proof.
  intros Hready.
  destruct (resolve_ready self Hready) as (f & tr & te & _ & Htr & Hte & ? & ? & ? & _).
  destruct (get_data_returns "X_train" self tr f) as [train Htrain]; [done..|].
  destruct (get_data_returns "X_test" self te f) as [test Htest]; [done..|].
  destruct (columns_where_returns
              (λ j, String.eqb j "Binary" || String.eqb j "Categorical") self) as [cols Hcols].
  { by destruct Hready as (? & ? & ? & ? & ? & ? & ? & ? & ? & ? & ?). }
  unfold AutoML.encoding, mbind at 1 2 3 4, Py_bind at 1 2 3 4, reading, lift.
  rewrite Htrain, Htest, Hcols.
  destruct (for_each_encode_returns (encoding_label enc) cols (train, test))
    as [[train' test'] Hloop].
  change (AutoML.encoder enc (Some "label")) with (Some (encoding_label enc)).
  rewrite Hloop. by apply write_back_returns.
Qed.

Lemma normalization_returns norm self :
  ready self → ∃ df, (AutoML.normalization nrm norm self).2 = inr df.
Proof.
  intros Hready.
  destruct (resolve_ready self Hready) as (f & tr & te & _ & Htr & Hte & ? & ? & ? & _).
  destruct (get_data_returns "X_train" self tr f) as [train Htrain]; [done..|].
  destruct (get_data_returns "X_test" self te f) as [test Htest]; [done..|].
  destruct (columns_where_returns (λ j, String.eqb j "Numerical") self) as [cols Hcols].
  { by destruct Hready as (? & ? & ? & ? & ? & ? & ? & ? & ? & ? & ?). }
  unfold AutoML.normalization, mbind at 1 2 3, Py_bind at 1 2 3, reading.
  rewrite Htrain, Htest, Hcols.
  destruct (foldl _ _ _) as [train' test']. by apply write_back_returns.
Qed.

Lemma imputation_returns self :
  ready self →
  ∃ df, (AutoML.imputation imp (Some "most") (Some "most") (Some "median") self).2 = inr df.
Proof.
  intros Hready.
  destruct (resolve_ready self Hready) as (f & tr & te & HX & _ & _ & ? & _ & _ & ?).
  destruct (get_data_returns "X" self _ f HX) as [X HgetX]; [done..|].
  assert (length (AutoML.feat_type self) ≤ length (columns (AutoML.data self)))%nat as Hlen.
  { by destruct Hready as (? & ? & ? & ? & ? & ? & ? & ? & ? & ? & ?). }
  destruct (columns_where_returns (λ j, String.eqb j "Binary") self Hlen) as [bs Hbs].
  destruct (columns_where_returns (λ j, String.eqb j "Categorical") self Hlen) as [cs Hcs].
  destruct (columns_where_returns (λ j, String.eqb j "Numerical") self Hlen) as [ns Hns].
  assert (∃ w, AutoML.imputed imp (Some "most") (Some "most") (Some "median") self = inr w)
    as [w Hw].
  { unfold AutoML.imputed. rewrite HgetX, Hbs, Hcs, Hns. simpl. eauto. }
  unfold AutoML.imputation, mbind at 1, Py_bind at 1, reading. rewrite Hw.
  eapply (bind_returns AutoML.same_rows ready); [apply set_data_same_rows| |done| |].
  { intros st' Hrel Hq. exact (ready_same_rows _ _ Hrel Hq). }
  { exists (). by eapply set_data_returns. }
  intros _ s1 _. by eexists.
Qed.

(** With the default policies [process_data] returns the processed
    table on every well-formed dataset. *)
Lemma process_data_default_returns self :
  AutoML.well_formed self →
  ∃ df, (AutoML.process_data_default imp nrm enc self).2 = inr df.
Proof.
  intros (f & tr & te & HX & Htr & Hte & ? & ? & ? & ?).
  unfold AutoML.process_data_default. rewrite process_data_reset.
  set (s0 := AutoML.set_processed (AutoML.data self) self).
  assert (ready s0) as Hs0 by (exists f, tr, te; by repeat split).
  eapply (bind_returns AutoML.same_rows ready); [apply encoding_same_rows| |done| |].
  { intros st' Hrel Hq. exact (ready_same_rows _ _ Hrel Hq). }
  { by apply encoding_returns. }
  intros _ s1 Hs1.
  eapply (bind_returns AutoML.same_rows ready);
    [apply (imputation_same_rows imp (Some "most") (Some "most") (Some "median"))
    | |done|by apply imputation_returns|].
  { intros st' Hrel Hq. exact (ready_same_rows _ _ Hrel Hq). }
  intros _ s2 Hs2.
  eapply (bind_returns AutoML.same_rows ready); [apply normalization_same_rows| |done| |].
  { intros st' Hrel Hq. exact (ready_same_rows _ _ Hrel Hq). }
  { by apply normalization_returns. }
  intros _ s3 _. by eexists.
Qed.

End Returns.

(** ** A policy that [normalization] does not know *)

Lemma foldl_normalize_other {num P} (nrm : normalization_module num P) norm frames cols :
  AutoML.is_str norm "standard" = false →
  AutoML.is_str norm "min-max" = false →
  foldl (AutoML.normalize_column nrm norm) frames cols = frames.
Proof.
  intros H1 H2. induction cols as [|c cols IH]; simpl; [done|].
  unfold AutoML.normalize_column at 2. destruct frames as [train test].
  by rewrite H1, H2.
Qed.

Lemma aligned_loc {num} (df v : DataFrame num) rows cols k :
  loc df rows cols = inr v → k.1 ∈ rows → k.2 ∈ cols → aligned v k = cell_at df k.
Proof.
  intros Hv Hr Hc. apply loc_inr in Hv as (_ & _ & Hi & Hcs & Hcell).
  unfold aligned. rewrite Hi, Hcs, !bool_decide_eq_true_2 by done. simpl. by apply Hcell.
Qed.

(** On every dataset whose selections and features are labels of the
    processed table, [normalization] under a policy that is neither
    [standard] nor [min-max] (a misspelt name as much as [None]) returns
    without raising and leaves every cell of the processed table as it
    was. *)
Lemma normalization_other_policy {num P} (nrm : normalization_module num P) norm
    (self : AutoML.t num) :
  AutoML.ready self →
  AutoML.is_str norm "standard" = false →
  AutoML.is_str norm "min-max" = false →
  let run := AutoML.normalization nrm norm self in
  (∃ df, run.2 = inr df) ∧
  ∀ k, cell_at (AutoML.processed_data run.1) k = cell_at (AutoML.processed_data self) k.
Proof.
  intros Hready H1 H2 run.
  split; [by apply normalization_returns|].
  destruct (resolve_ready self Hready)
    as (features & train & test & _ & Hres_train & Hres_test & Hfeat & Htrain & Htest & _).
  set (before := AutoML.processed_data self).
  assert (∃ train0, loc before train features = inr train0) as [train0 Htrain0].
  { unfold loc. rewrite (proj2 (has_labels_true before train features)) by done. eauto. }
  assert (∃ test0, loc before test features = inr test0) as [test0 Htest0].
  { unfold loc. rewrite (proj2 (has_labels_true before test features)) by done. eauto. }
  destruct (columns_where_returns (λ j, String.eqb j "Numerical") self) as [cols Hcols].
  { by destruct Hready as (? & ? & ? & ? & ? & ? & ? & ? & ? & ? & ?). }
  destruct (loc_set_succeeds before train features train0 Htrain Hfeat) as [p1 Hp1].
  pose proof (loc_set_inr _ _ _ _ _ Hp1) as [Hp1i Hp1c].
  destruct (loc_set_succeeds p1 test features test0) as [p2 Hp2];
    [by rewrite Hp1i|by rewrite Hp1c|].
  assert (run = (AutoML.set_processed p2 self, inr p2)) as ->.
  { subst run. unfold AutoML.normalization, mbind, Py_bind, reading, AutoML.get_data.
    rewrite Hres_train, Hres_test. cbn [mbind result_bind local mret result_ret].
    fold before. rewrite Htrain0, Htest0, Hcols, foldl_normalize_other by done.
    unfold AutoML.set_data. rewrite Hres_train. cbn [mbind result_bind local mret result_ret].
    fold before. rewrite Hp1. cbn [mbind result_bind local mret result_ret].
    change (AutoML.resolve "X_test" (AutoML.set_processed p1 self))
      with (AutoML.resolve "X_test" self).
    rewrite Hres_test. cbn [mbind result_bind local mret result_ret].
    cbn [AutoML.processed_data AutoML.set_processed]. by rewrite Hp2. }
  intros k. simpl. rewrite (loc_set_cell _ _ _ _ _ _ Hp2).
  case_bool_decide as Hk.
  - destruct Hk. by apply (aligned_loc before test0 test features).
  - rewrite (loc_set_cell _ _ _ _ _ _ Hp1). case_bool_decide as Hk'; [|done].
    destruct Hk'. by apply (aligned_loc before train0 train features).
Qed.

(** On such a dataset with a Binary or Categorical column, [encoding]
    under a policy other than its three names, [None] included, raises
    [UnboundLocalError] and leaves the object as it was. *)
Lemma encoding_other_policy {num M} (enc : encoding_module num M) code
    (self : AutoML.t num) c cols :
  AutoML.ready self →
  AutoML.encoder enc code = None →
  AutoML.columns_where (λ j, String.eqb j "Binary" || String.eqb j "Categorical") self
    = inr (c :: cols) →
  AutoML.encoding enc code self = (self, inl UnboundLocalError).
Proof.
  intros Hready Hcode Hcols.
  destruct (resolve_ready self Hready)
    as (features & train & test & _ & Hres_train & Hres_test & Hfeat & Htrain & Htest & _).
  destruct (get_data_returns "X_train" self train features) as [train0 Htrain0]; [done..|].
  destruct (get_data_returns "X_test" self test features) as [test0 Htest0]; [done..|].
  unfold AutoML.encoding, mbind, Py_bind, reading, lift.
  by rewrite Htrain0, Htest0, Hcols, Hcode.
Qed.

(** ** The comparator *)

Section ComparatorFacts.
Context {num P M Dist Matrix : Type}.
Context (imp : imputation_module num) (nrm : normalization_module num P)
        (enc : encoding_module num M).
Context (descriptor_distances : AutoML.t num → AutoML.t num → result Dist).
Context (comparison_metrics : AutoML.t num → AutoML.t num → result Matrix).

Abbreviation world := (Comparator.world (num := num)).
Abbreviation process_both := (Comparator.process_data imp nrm enc).
Abbreviation init := (Comparator.__init__ imp nrm enc descriptor_distances comparison_metrics).
Abbreviation same_but_processed := (Comparator.same_but_processed (num := num)).

Global Instance same_but_processed_refl : Reflexive same_but_processed.
Proof. intros w. split; [done|]. intros ds. reflexivity. Qed.

Global Instance same_but_processed_trans : Transitive same_but_processed.
Proof.
  intros a b c [Hc1 Hh1] [Hc2 Hh2]. split; [congruence|].
  intros ds. etrans; [apply Hh1|apply Hh2].
Qed.

Lemma on_spec {A} ds (m : Py (AutoML.t num) A) (w : world) :
  Comparator.on ds m w
  = (Comparator.mk_world (<[ds := (m (Comparator.heap w ds)).1]> (Comparator.heap w))
       (Comparator.computed w),
     (m (Comparator.heap w ds)).2).
Proof. unfold Comparator.on. by destruct (m _). Qed.

Lemma on_same_but_processed {A} ds (m : Py (AutoML.t num) A) :
  preserves AutoML.same_raw m → preserves same_but_processed (Comparator.on ds m).
Proof.
  intros Hm w. rewrite on_spec. split; [done|]. intros ds'. simpl.
  destruct (decide (ds = ds')) as [<-|Hne].
  - rewrite fn_lookup_insert. apply Hm.
  - by rewrite fn_lookup_insert_ne.
Qed.

Lemma process_both_same_but_processed ds1 ds2 kw :
  preserves same_but_processed (process_both ds1 ds2 kw).
Proof.
  unfold Comparator.process_data.
  bind_step; [apply on_same_but_processed, process_data_same_raw|].
  bind_step; [apply on_same_but_processed, process_data_same_raw|].
  leaf.
Qed.

(** The heap that [process_data] of the comparator leaves: the first
    dataset processed and, once that call has returned, the second. *)
Lemma process_both_heap ds1 ds2 kw (w : world) :
  let first := Comparator.AutoML_process_data imp nrm enc kw (Comparator.heap w ds1) in
  let h1 := <[ds1 := first.1]> (Comparator.heap w) in
  Comparator.heap (process_both ds1 ds2 kw w).1
  = match first.2 with
    | inl _ => h1
    | inr _ => <[ds2 := (Comparator.AutoML_process_data imp nrm enc kw (h1 ds2)).1]> h1
    end.
Proof.
  intros first h1. unfold Comparator.process_data, mbind, Py_bind.
  rewrite on_spec. fold first. destruct (first.2); [done|].
  rewrite on_spec. simpl. fold h1.
  by destruct ((Comparator.AutoML_process_data imp nrm enc kw (h1 ds2)).2).
Qed.

Lemma Py_bind_unfold {St A B} (m : Py St A) (f : A → Py St B) st :
  (m ≫= f) st
  = match m st with
    | (st', inl e) => (st', inl e)
    | (st', inr v) => f v st'
    end.
Proof. reflexivity. Qed.

(** Nothing after [process_data] in the constructor touches a dataset. *)
Lemma init_heap ds1 ds2 (w : world) :
  Comparator.heap (init ds1 ds2 w).1
  = Comparator.heap (process_both ds1 ds2 Comparator.no_kwargs w).1.
Proof.
  unfold Comparator.__init__. rewrite Py_bind_unfold.
  destruct (process_both ds1 ds2 Comparator.no_kwargs w) as [w1 [e|[]]]; [done|].
  py_step.
  repeat match goal with
         | |- context [match ?r with inl _ => _ | inr _ => _ end] =>
             destruct r; simpl; try done
         | |- context [if ?b then _ else _] => destruct b; simpl; try done
         end.
Qed.

(** C10.  Constructing a comparator runs [process_data] with the default
    policies on the first dataset and then on the second, and the
    datasets it leaves in the heap are those that these two calls leave,
    also when the constructor raises afterwards.  [process_data] puts a
    copy of the raw table in place of the processed table and runs
    encoding, imputation and normalization on it, so a dataset that
    differed only in its processed table comes out the same: earlier
    preprocessing is discarded.  On a well-formed dataset the pipeline
    runs to its end. *)
Theorem comparator_init_reprocesses ds1 ds2 (w : world) :
  let pd := AutoML.process_data_default imp nrm enc in
  let first := pd (Comparator.heap w ds1) in
  let h1 := <[ds1 := first.1]> (Comparator.heap w) in
  Comparator.heap (init ds1 ds2 w).1
  = match first.2 with
    | inl _ => h1
    | inr _ => <[ds2 := (pd (h1 ds2)).1]> h1
    end
  ∧ (∀ self,
       pd self
       = (AutoML.encoding enc (Some "label") ;;
          AutoML.imputation imp (Some "most") (Some "most") (Some "median") ;;
          AutoML.normalization nrm (Some "standard") ;;
          self ← getself;
          mret (AutoML.processed_data self))
           (AutoML.set_processed (AutoML.data self) self))
  ∧ (∀ self df, pd (AutoML.set_processed df self) = pd self)
  ∧ (∀ self, AutoML.well_formed self → ∃ df, (pd self).2 = inr df).
Proof.
  intros pd first h1. split; [|split; [|split]].
  - rewrite init_heap. apply process_both_heap.
  - reflexivity.
  - reflexivity.
  - apply process_data_default_returns.
Qed.

(** C7.  When the feature counts recorded in the info of the two
    datasets differ, the constructor raises, and it raises before any
    descriptor distance or comparison metric is computed; the exception
    is the failed assertion unless [process_data] itself raised. *)
Theorem comparator_init_feature_mismatch ds1 ds2 (w : world) n1 n2 :
  Comparator.info_item (AutoML.info (Comparator.heap w ds1)) "feat_num" = inr n1 →
  Comparator.info_item (AutoML.info (Comparator.heap w ds2)) "feat_num" = inr n2 →
  n1 ≠ n2 →
  (∃ e, (init ds1 ds2 w).2 = inl e ∧
        ((process_both ds1 ds2 Comparator.no_kwargs w).2 = inr () → e = AssertionError)) ∧
  Comparator.computed (init ds1 ds2 w).1 = Comparator.computed w.
Proof.
  intros H1 H2 Hne.
  destruct (process_both_same_but_processed ds1 ds2 Comparator.no_kwargs w) as [Hc Hh].
  unfold Comparator.__init__. rewrite Py_bind_unfold.
  destruct (process_both ds1 ds2 Comparator.no_kwargs w) as [w1 [e|[]]]; simpl in *.
  - split; [|done]. exists e. split; [done|discriminate].
  - destruct (Hh ds1) as (_ & _ & _ & _ & Hi1 & _).
    destruct (Hh ds2) as (_ & _ & _ & _ & Hi2 & _).
    py_step. rewrite Hi1, Hi2, H1, H2. simpl.
    rewrite bool_decide_eq_false_2 by done. simpl. split; [|done]. eauto.
Qed.

End ComparatorFacts.

Lemma scenario_well_formed : AutoML.well_formed Examples.scenario.
Proof.
  exists [LStr "b"; LStr "x"], (LInt <$> [0; 1; 2; 3; 4; 5; 6; 7]%Z), (LInt <$> [8; 9]%Z).
  repeat split; try (vm_compute; reflexivity);
    try (eapply bool_decide_eq_true_1; vm_compute; reflexivity).
Qed.

Lemma comparator_init_reprocesses_witness :
  ∃ df, (AutoML.process_data_default SpecImputation.module (plain_normalization Q)
           (plain_encoding Q) Examples.scenario).2 = inr df.
Proof.
  destruct (comparator_init_reprocesses SpecImputation.module (plain_normalization Q)
              (plain_encoding Q) (λ _ _, inr ()) (λ _ _, inr ()) 0 1 Examples.two_datasets)
    as (_ & _ & _ & Hreturns).
  apply Hreturns, scenario_well_formed.
Defined.

Lemma comparator_init_feature_mismatch_witness :
  let imp := SpecImputation.module in
  let nrm := plain_normalization Q in
  let enc := plain_encoding Q in
  let out := Comparator.__init__ imp nrm enc (λ _ _, inr ()) (λ _ _, inr ()) 0 1
               Examples.two_datasets in
  (∃ e, out.2 = inl e ∧
        ((Comparator.process_data imp nrm enc 0 1 Comparator.no_kwargs
            Examples.two_datasets).2 = inr () → e = AssertionError)) ∧
  Comparator.computed out.1 = Comparator.computed Examples.two_datasets.
Proof.
  apply (comparator_init_feature_mismatch SpecImputation.module (plain_normalization Q)
           (plain_encoding Q) (λ _ _, inr ()) (λ _ _, inr ()) 0 1 Examples.two_datasets
           (IInt 2) (IInt 1)).
  - vm_compute. reflexivity.
  - vm_compute. reflexivity.
  - discriminate.
Defined.

(** ** Standard normalization over the reals *)

Section Standardize.
Import SpecNormalization.
Local Open Scope R_scope.

Lemma sum_of_shift_scale (l : list R) a b :
  b ≠ 0 →
  sum_of ((λ x, (x - a) / b) <$> l) = (sum_of l - INR (length l) * a) / b.
Proof.
  intros Hb. induction l as [|x l IH].
  - simpl. field. done.
  - rewrite fmap_cons. cbn [sum_of foldr length] in *. rewrite S_INR.
    unfold sum_of in IH. rewrite IH. field. done.
Qed.

Lemma sum_of_squares_scale (l : list R) a b :
  b ≠ 0 →
  sum_of ((λ y, (y - 0) * (y - 0)) <$> ((λ x, (x - a) / b) <$> l))
  = sum_of ((λ x, (x - a) * (x - a)) <$> l) / (b * b).
Proof.
  intros Hb. induction l as [|x l IH].
  - simpl. field. done.
  - rewrite !fmap_cons. cbn [sum_of foldr] in *. unfold sum_of in IH. rewrite IH.
    field. done.
Qed.

(** A standard deviation that is not zero needs two values at least. *)
Lemma std_of_nonzero_length (l : list R) : std_of l ≠ 0 → (2 ≤ length l)%nat.
Proof.
  intros Hstd. destruct l as [|x [|y l]]; simpl; try lia; exfalso; apply Hstd.
  - unfold std_of. simpl. unfold Rdiv. rewrite Rmult_0_l. apply sqrt_0.
  - unfold std_of, mean_of. simpl.
    replace (((x - (x + 0) / 1) * (x - (x + 0) / 1) + 0) / (1 - 1)) with 0.
    + apply sqrt_0.
    + unfold Rdiv. replace (x - (x + 0) * / 1) with 0 by (field; lra). lra.
Qed.

(** After the values have had their mean subtracted and been divided by
    their standard deviation, their mean is 0 and their standard
    deviation is 1. *)
Lemma standardized (l : list R) :
  std_of l ≠ 0 →
  let ys := (λ x, (x - mean_of l) / std_of l) <$> l in
  mean_of ys = 0 ∧ std_of ys = 1.
Proof.
  intros Hstd ys.
  pose proof (std_of_nonzero_length l Hstd) as Hlen.
  assert (INR (length l) ≠ 0) as Hn by (apply not_0_INR; lia).
  assert (INR (length l) - 1 ≠ 0) as Hn1.
  { replace 1 with (INR 1) by done. rewrite <- minus_INR by lia. apply not_0_INR. lia. }
  assert (mean_of ys = 0) as Hmean.
  { unfold mean_of at 1. subst ys. rewrite sum_of_shift_scale by done.
    rewrite length_fmap. unfold mean_of. field. done. }
  split; [done|].
  unfold std_of at 1. rewrite Hmean. subst ys. rewrite sum_of_squares_scale by done.
  rewrite length_fmap.
  set (V := sum_of ((λ x, (x - mean_of l) * (x - mean_of l)) <$> l) / (INR (length l) - 1)).
  assert (std_of l = sqrt V) as HV by done.
  assert (0 < V) as HVpos.
  { destruct (Rlt_le_dec 0 V) as [|Hle]; [done|]. exfalso. apply Hstd.
    rewrite HV. by apply sqrt_neg_0. }
  replace (sum_of ((λ x, (x - mean_of l) * (x - mean_of l)) <$> l)
           / (std_of l * std_of l) / (INR (length l) - 1))
    with (V / (std_of l * std_of l)).
  - rewrite HV, sqrt_def by lra. replace (V / V) with 1 by (field; lra). apply sqrt_1.
  - subst V. field. done.
Qed.

End Standardize.

(** Whatever the module [normalization] computes, one turn of the loop
    of [AutoML.normalization] under [standard] calls it on the train
    frame without a pair, and on the test frame with the pair that the
    first call returned. *)
Lemma normalize_column_reuses_pair {num P} (nrm : normalization_module num P)
    (train test : DataFrame num) c :
  AutoML.normalize_column nrm (Some "standard") (train, test) c
  = let fitted := normalization_standard nrm train c None None in
    (fitted.1,
     (normalization_standard nrm test c (Some fitted.2.1) (Some fitted.2.2)).1).
Proof.
  unfold AutoML.normalize_column. simpl.
  destruct (normalization_standard nrm train c None None) as [train' [mean std]]. simpl.
  by destruct (normalization_standard nrm test c (Some mean) (Some std)).
Qed.

Section StandardFrames.
Import SpecNormalization.

Lemma map_column_cell f (df : DataFrame R) c k :
  cell_at (map_column f df c) k
  = if bool_decide (k.2 = c ∧ k.1 ∈ index df) then map_cell f (cell_at df k)
    else cell_at df k.
Proof.
  unfold map_column, cell_at at 1. simpl.
  assert (foldr (λ r m, <[(r, c) := map_cell f (cell_at df (r, c))]> m) (cells df) (index df)
          = foldr (λ k m, <[k := map_cell f (cell_at df k)]> m) (cells df)
              ((λ r, (r, c)) <$> index df)) as -> by (by rewrite foldr_fmap).
  rewrite lookup_foldr_insert.
  rewrite (bool_decide_ext _ (k.2 = c ∧ k.1 ∈ index df)).
  - by destruct (bool_decide _).
  - rewrite list_elem_of_fmap. destruct k as [r c']. simpl. split.
    + by intros (r' & [= -> ->] & Hr).
    + intros [-> Hr]. eauto.
Qed.

(** The numbers of a column depend on the row index and on the cells of
    that column only. *)
Lemma column_numbers_ext (df df' : DataFrame R) c :
  index df = index df' →
  (∀ r, r ∈ index df → cell_at df (r, c) = cell_at df' (r, c)) →
  column_numbers df c = column_numbers df' c.
Proof.
  intros Hi Hc. unfold column_numbers, Processing.column_values. rewrite <- Hi.
  f_equal. apply list_fmap_ext. intros i r Hr. apply Hc.
  by apply list_elem_of_lookup_2 in Hr.
Qed.

(** One turn of the loop: the column of the train frame is standardized
    with its own mean and deviation, and the column of the test frame
    with the very same pair. *)
Lemma normalize_column_standard train test c :
  AutoML.normalize_column module (Some "standard") (train, test) c
  = (map_column (fit train c) train c, map_column (fit train c) test c).
Proof. reflexivity. Qed.

Lemma fold_standard (ncols : list label) : ∀ train test,
  NoDup ncols →
  let out := foldl (AutoML.normalize_column module (Some "standard")) (train, test) ncols in
  index out.1 = index train ∧ columns out.1 = columns train ∧
  index out.2 = index test ∧ columns out.2 = columns test ∧
  ∀ k,
    cell_at out.1 k
    = (if bool_decide (k.2 ∈ ncols ∧ k.1 ∈ index train)
       then map_cell (fit train k.2) (cell_at train k) else cell_at train k) ∧
    cell_at out.2 k
    = (if bool_decide (k.2 ∈ ncols ∧ k.1 ∈ index test)
       then map_cell (fit train k.2) (cell_at test k) else cell_at test k).
Proof.
  induction ncols as [|c0 l IH]; intros train test Hnd out.
  - subst out. cbn [foldl fst snd]. do 4 (split; [done|]). intros k.
    rewrite !bool_decide_eq_false_2; [done|..]; by intros [?%elem_of_nil _].
  - apply NoDup_cons in Hnd as [Hc0 Hnd].
    subst out. cbn [foldl]. rewrite normalize_column_standard.
    set (train1 := map_column (fit train c0) train c0).
    set (test1 := map_column (fit train c0) test c0).
    destruct (IH train1 test1 Hnd) as (Hi1 & Hc1 & Hi2 & Hc2 & Hcells).
    do 4 (split; [done|]). intros k. destruct (Hcells k) as [H1 H2].
    rewrite H1, H2. clear H1 H2 Hcells.
    change (index train1) with (index train). change (index test1) with (index test).
    subst train1 test1. rewrite !map_column_cell.
    destruct k as [r c]. simpl.
    destruct (decide (c = c0)) as [->|Hk].
    + split; repeat case_bool_decide; try done;
        exfalso; rewrite ?elem_of_cons in *; naive_solver.
    + assert (fit (map_column (fit train c0) train c0) c = fit train c) as ->.
      { unfold fit. rewrite (column_numbers_ext _ train); [done..|].
        intros r' _. rewrite map_column_cell. simpl.
        by rewrite bool_decide_eq_false_2 by (by intros [? _]). }
      split; repeat case_bool_decide; try done;
        exfalso; rewrite ?elem_of_cons in *; naive_solver.
Qed.

Lemma numbers_map_cell f (l : list (cell R)) :
  SpecImputation.numbers (map_cell f <$> l) = f <$> SpecImputation.numbers l.
Proof.
  unfold SpecImputation.numbers. induction l as [|[x| |s] l IH]; csimpl; by rewrite ?IH.
Qed.

End StandardFrames.

(** The columns that [columns_where] selects sit at distinct positions,
    so they are distinct when the column labels are. *)
Lemma mapM_item_inr (cols : list label) (ps : list (nat * string)) l :
  mapM (M := result) (λ '(i, j), item cols i) ps = inr l →
  Forall2 (λ p c, cols !! p.1 = Some c) ps l.
Proof.
  revert l. induction ps as [|[i j] ps IH]; intros l; simpl.
  - intros [= <-]. constructor.
  - intros H. apply bind_inr in H as (c & Hc & H).
    apply bind_inr in H as (cs & Hcs & [= <-]).
    constructor; [|by apply IH]. simpl. unfold item in Hc.
    by destruct (cols !! i) as [c'|]; [injection Hc as ->|].
Qed.

Lemma columns_where_NoDup {num} p (self : AutoML.t num) l :
  AutoML.columns_where p self = inr l →
  NoDup (columns (AutoML.data self)) → NoDup l.
Proof.
  unfold AutoML.columns_where. intros Hl Hnd. apply mapM_item_inr in Hl.
  set (ps := filter _ _) in Hl.
  assert (NoDup ps.*1) as Hps.
  { apply (sublist_NoDup _ (enumerate (AutoML.feat_type self)).*1).
    - unfold enumerate. rewrite fst_zip by (by rewrite length_seq). apply NoDup_seq.
    - apply fmap_sublist, sublist_filter. }
  apply NoDup_alt. intros a b x Ha Hb.
  destruct (Forall2_lookup_r _ _ _ _ _ Hl Ha) as (pa & Hpa & Hca).
  destruct (Forall2_lookup_r _ _ _ _ _ Hl Hb) as (pb & Hpb & Hcb).
  pose proof (NoDup_lookup _ _ _ _ Hnd Hca Hcb) as Hp.
  eapply (NoDup_lookup ps.*1); [done| |].
  - rewrite list_lookup_fmap, Hpa. done.
  - rewrite list_lookup_fmap, Hpb. simpl. by rewrite Hp.
Qed.

(** C2.  Under [standard] normalization with the [normalization] module
    as the specification describes it, for a numerical feature column of
    a dataset whose selections and features are labels of the processed
    table: the call returns; every test entry of the column becomes
    [(value - mean) / std] where [mean] and [std] are those of the train
    entries of the column before the call, so the pair fitted on the
    train partition is the one applied to the test partition; every train
    entry is transformed with the same pair; and the train entries then
    have mean 0 and standard deviation 1 (exactly, over the reals)
    whenever their standard deviation was not zero. *)
Theorem standard_normalization_fit_on_train (self : AutoML.t R)
    (features train test numerical : list label) (column : label) :
  AutoML.subsets self !! "X" = Some features →
  AutoML.subsets self !! "train" = Some train →
  AutoML.subsets self !! "test" = Some test →
  train ⊆ index (AutoML.processed_data self) →
  test ⊆ index (AutoML.processed_data self) →
  features ⊆ columns (AutoML.processed_data self) →
  train ## test →
  NoDup (columns (AutoML.data self)) →
  AutoML.columns_where (λ j, String.eqb j "Numerical") self = inr numerical →
  column ∈ numerical →
  column ∈ features →
  let run := AutoML.normalization SpecNormalization.module (Some "standard") self in
  let before := AutoML.processed_data self in
  let after := AutoML.processed_data run.1 in
  let values := SpecImputation.numbers ((λ r, cell_at before (r, column)) <$> train) in
  let mean := SpecNormalization.mean_of values in
  let std := SpecNormalization.std_of values in
  let scaled := SpecNormalization.map_cell (λ x, ((x - mean) / std)%R) in
  run.2 = inr after ∧
  (∀ r, r ∈ test → cell_at after (r, column) = scaled (cell_at before (r, column))) ∧
  (∀ r, r ∈ train → cell_at after (r, column) = scaled (cell_at before (r, column))) ∧
  (std ≠ 0%R →
   let normalized := SpecImputation.numbers ((λ r, cell_at after (r, column)) <$> train) in
   SpecNormalization.mean_of normalized = 0%R ∧
   SpecNormalization.std_of normalized = 1%R).
Proof.
  intros HX Htr Hte Htrain Htest Hfeat Hdisj Hlabels Hnum Hcol Hcolf run before after
    values mean std scaled.
  pose proof (columns_where_NoDup _ self numerical Hnum Hlabels) as Hnd.
  (* the two reads *)
  assert (∃ train0, loc before train features = inr train0) as [train0 Htrain0].
  { unfold loc. rewrite (proj2 (has_labels_true before train features)) by done. eauto. }
  assert (∃ test0, loc before test features = inr test0) as [test0 Htest0].
  { unfold loc. rewrite (proj2 (has_labels_true before test features)) by done. eauto. }
  pose proof (resolve_compound self "X_train" "X" "train" train features
                Htr HX eq_refl eq_refl) as Hres_train.
  pose proof (resolve_compound self "X_test" "X" "test" test features
                Hte HX eq_refl eq_refl) as Hres_test.
  assert (AutoML.get_data "X_train" true self = inr train0) as Hget_train.
  { unfold AutoML.get_data. by rewrite Hres_train. }
  assert (AutoML.get_data "X_test" true self = inr test0) as Hget_test.
  { unfold AutoML.get_data. by rewrite Hres_test. }
  (* the loop *)
  pose proof (fold_standard numerical train0 test0 Hnd) as Hfold.
  destruct (foldl _ (train0, test0) numerical) as [train1 test1] eqn:Hloop.
  simpl in Hfold. destruct Hfold as (Hi1 & Hc1 & Hi2 & Hc2 & Hcells).
  apply loc_inr in Htrain0 as Htrain0'. destruct Htrain0' as (_ & _ & Hti & Htc & Htcell).
  apply loc_inr in Htest0 as Htest0'. destruct Htest0' as (_ & _ & Hsi & Hsc & Hscell).
  (* the two writes *)
  destruct (loc_set_succeeds before train features train1 Htrain Hfeat) as [p1 Hp1].
  pose proof (loc_set_inr _ _ _ _ _ Hp1) as [Hp1i Hp1c].
  destruct (loc_set_succeeds p1 test features test1) as [p2 Hp2];
    [by rewrite Hp1i|by rewrite Hp1c|].
  assert (run = (AutoML.set_processed p2 self, inr p2)) as Hrun.
  { subst run. unfold AutoML.normalization, mbind, Py_bind, reading.
    rewrite Hget_train, Hget_test, Hnum, Hloop.
    unfold AutoML.set_data. rewrite Hres_train. cbn [mbind result_bind local mret result_ret].
    fold before. rewrite Hp1. cbn [mbind result_bind local mret result_ret].
    change (AutoML.resolve "X_test" (AutoML.set_processed p1 self))
      with (AutoML.resolve "X_test" self).
    rewrite Hres_test. cbn [mbind result_bind local mret result_ret].
    cbn [AutoML.processed_data AutoML.set_processed]. by rewrite Hp2. }
  assert (after = p2) as Hafter by (subst after; by rewrite Hrun).
  (* the values the column is fitted on *)
  assert (SpecNormalization.fit train0 column = λ x, ((x - mean) / std)%R) as Hfit.
  { unfold SpecNormalization.fit. subst mean std values.
    unfold SpecNormalization.column_numbers, Processing.column_values.
    rewrite Hti.
    rewrite (list_fmap_ext (λ r, cell_at train0 (r, column))
               (λ r, cell_at before (r, column)) train); [done|].
    intros i r Hr. apply Htcell; [|done]. by apply list_elem_of_lookup_2 in Hr. }
  assert (∀ r, r ∈ test → cell_at after (r, column) = scaled (cell_at before (r, column)))
    as Htest_cells.
  { intros r Hr. rewrite Hafter, (loc_set_cell _ _ _ _ _ _ Hp2). simpl.
    rewrite bool_decide_eq_true_2 by done.
    unfold aligned. simpl. rewrite Hi2, Hc2, Hsi, Hsc.
    rewrite !bool_decide_eq_true_2 by done. simpl.
    destruct (Hcells (r, column)) as [_ ->]. simpl.
    rewrite Hsi, bool_decide_eq_true_2 by done.
    rewrite Hfit. fold scaled. by rewrite Hscell. }
  assert (∀ r, r ∈ train → cell_at after (r, column) = scaled (cell_at before (r, column)))
    as Htrain_cells.
  { intros r Hr. rewrite Hafter, (loc_set_cell _ _ _ _ _ _ Hp2). simpl.
    rewrite bool_decide_eq_false_2 by (intros [? _]; by apply (Hdisj r)).
    rewrite (loc_set_cell _ _ _ _ _ _ Hp1). simpl.
    rewrite bool_decide_eq_true_2 by done.
    unfold aligned. simpl. rewrite Hi1, Hc1, Hti, Htc.
    rewrite !bool_decide_eq_true_2 by done. simpl.
    destruct (Hcells (r, column)) as [-> _]. simpl.
    rewrite Hti, bool_decide_eq_true_2 by done.
    rewrite Hfit. fold scaled. by rewrite Htcell. }
  split; [by rewrite Hrun, Hafter|]. split; [done|]. split; [done|].
  intros Hstd normalized.
  assert (normalized = (λ x, ((x - mean) / std)%R) <$> values) as ->.
  { subst normalized values.
    rewrite <- numbers_map_cell, <- list_fmap_compose. f_equal.
    apply list_fmap_ext. intros i r Hr. simpl. apply Htrain_cells.
    by apply list_elem_of_lookup_2 in Hr. }
  by apply standardized.
Qed.

Lemma standard_normalization_fit_on_train_witness :
  let run := AutoML.normalization SpecNormalization.module (Some "standard")
               Examples.real_dataset in
  let after := AutoML.processed_data run.1 in
  let normalized :=
    SpecImputation.numbers ((λ r, cell_at after (r, LStr "x")) <$> py_range 0 3) in
  run.2 = inr after ∧
  SpecNormalization.mean_of normalized = 0%R ∧
  SpecNormalization.std_of normalized = 1%R.
Proof.
  destruct (standard_normalization_fit_on_train Examples.real_dataset
              [LStr "x"] (py_range 0 3) (py_range 3 1) [LStr "x"] (LStr "x"))
    as (Hrun & _ & _ & Hstats).
  - vm_compute. reflexivity.
  - vm_compute. reflexivity.
  - vm_compute. reflexivity.
  - eapply bool_decide_eq_true_1. vm_compute. reflexivity.
  - eapply bool_decide_eq_true_1. vm_compute. reflexivity.
  - eapply bool_decide_eq_true_1. vm_compute. reflexivity.
  - apply (py_range_disjoint 0 3 1).
  - apply NoDup_singleton.
  - vm_compute. reflexivity.
  - eapply bool_decide_eq_true_1. vm_compute. reflexivity.
  - eapply bool_decide_eq_true_1. vm_compute. reflexivity.
  - split; [exact Hrun|]. apply Hstats.
    assert (SpecImputation.numbers
              ((λ r, cell_at (AutoML.processed_data Examples.real_dataset) (r, LStr "x"))
                 <$> py_range 0 3) = [1%R; 2%R; 3%R]) as ->
      by (vm_compute; reflexivity).
    apply Rgt_not_eq, Rlt_gt, sqrt_lt_R0.
    unfold SpecNormalization.mean_of, SpecNormalization.sum_of. simpl. lra.
Defined.
